(** * Gem process supervisor: lifecycle engine, cluster coordinator, log tail,
      script scheduler and process listing, embedded from the Go sources.

    The embedding follows the source function by function.  A
    [*ManagedProcess] is a pointer into a heap of records, because the monitor
    goroutine keeps mutating the record it was started with even after the
    registry entry for the same name has been replaced.  [pm.mutex] is kept as
    one bit of state: Go's [sync.RWMutex] is not reentrant, so a [Lock] issued
    while the lock is held never returns.  Everything the operating system
    decides (hooks, lookups, file opens, spawns, signals) is read from an
    [OS] record of oracles. *)

From Stdlib Require Import ZArith Ascii String List Bool Lia.
From Stdlib Require Import DecimalString DecimalFacts DecimalNat.
From stdpp Require Import base option list gmap strings fin_maps.

Local Open Scope string_scope.
Local Open Scope list_scope.
Local Open Scope Z_scope.

(** ** config/config.go *)

Module Config.

Record ClusterConfig := mkCluster {
  Instances : Z;
  Mode : string
}.

Record LogConfig := mkLog {
  Stdout : string;
  Stderr : string;
  Rotate : bool;
  MaxSize : string;
  MaxFiles : Z
}.

Record ScriptsConfig := mkScripts {
  PreStart : string;
  PostStart : string;
  PreStop : string;
  PostStop : string
}.

Record ProcessConfig := mkProcessConfig {
  Name : string;
  Command : string;
  Args : list string;
  WorkingDir : string;
  Environment : list (string * string);
  Restart : string;
  MaxRestarts : Z;
  RestartDelay : Z;
  Cluster : ClusterConfig;
  Log : LogConfig;
  AutoStart : bool;
  User : string;
  Group : string;
  Scripts : ScriptsConfig
}.

(** [instanceConfig.Name = ...] on a copy of the struct. *)
Definition withName (c : ProcessConfig) (n : string) : ProcessConfig :=
  mkProcessConfig n (Command c) (Args c) (WorkingDir c) (Environment c)
    (Restart c) (MaxRestarts c) (RestartDelay c) (Cluster c) (Log c)
    (AutoStart c) (User c) (Group c) (Scripts c).

(** [instanceConfig.Cluster.Instances = ...] on a copy of the struct. *)
Definition withInstances (c : ProcessConfig) (k : Z) : ProcessConfig :=
  mkProcessConfig (Name c) (Command c) (Args c) (WorkingDir c) (Environment c)
    (Restart c) (MaxRestarts c) (RestartDelay c)
    (mkCluster k (Mode (Cluster c))) (Log c)
    (AutoStart c) (User c) (Group c) (Scripts c).

End Config.

(** ** core: the process manager *)

Module Core.
Import Config.

(** A [*ManagedProcess]. *)
Abbreviation ptr := nat (only parsing).

(** Errors, by the place that raises them. *)
Inductive error :=
| ErrAlreadyRunning (name : string)
| ErrNotFound (name : string)
| ErrPreStart
| ErrUserLookup
| ErrMkdir
| ErrOpenLog (path : string)
| ErrSpawn
| ErrSignal
| ErrClusterMaster
| ErrInvalidStream (stream : string)
| ErrOpen (path : string)
| ErrScan.

Inductive result (A : Type) :=
| Ok (a : A)
| Err (e : error).
Arguments Ok {A} a.
Arguments Err {A} e.

(** What the operating system and the Go runtime library answer. *)
Record OS := mkOS {
  (** [runScript]: does [sh -c script] exit with status zero? *)
  os_runScript : string -> bool;
  (** [user.Lookup] followed by [strconv.Atoi] of the uid. *)
  os_lookupUser : string -> bool;
  (** [user.LookupGroup] followed by [strconv.Atoi] of the gid. *)
  os_lookupGroup : string -> bool;
  os_mkdirAll : string -> bool;
  (** [os.OpenFile(path, O_CREATE|O_WRONLY|O_APPEND, 0644)]. *)
  os_openFile : string -> bool;
  (** [cmd.Start]: the pid of the child, or a failure. *)
  os_cmdStart : ProcessConfig -> option Z;
  (** [Process.Kill] (force) or [Process.Signal(SIGTERM)]. *)
  os_signal : Z -> bool -> bool;
  (** [utils.WritePIDFile]. *)
  os_writePID : string -> bool;
  (** [filepath.Join]. *)
  os_join : string -> string -> string
}.

Record ManagedProcess := mkProc {
  Config : ProcessConfig;
  (** [Cmd]: [None] is the nil pointer, [Some pid] a started command. *)
  Cmd : option Z;
  PID : Z;
  Status : string;
  Restarts : Z;
  (** [LogFiles]: stream name and the path the handle was opened on. *)
  LogFiles : list (string * string);
  ClusterProcs : list ptr
}.

(** Goroutines launched with [go] that have not finished yet. *)
Inductive task :=
| TMonitor (p : ptr)                   (* go pm.monitorProcess(proc) *)
| TStopWait (p : ptr) (name : string)  (* the waiter launched by StopProcess *)
| TPostStart (script : string).        (* the post-start hook *)

Record State := mkState {
  processes : gmap string ptr;
  heap : list ManagedProcess;
  (** [pm.mutex] is write-locked. *)
  mutex : bool;
  tasks : list task;
  pidFiles : gmap string Z;
  (** every successful [cmd.Start], oldest first: process name and pid *)
  spawned : list (string * Z);
  (** every kill or SIGTERM that was sent, oldest first: pid and force *)
  signalled : list (Z * bool)
}.

Definition NewProcessManager : State :=
  mkState ∅ [] false [] ∅ [] [].

Definition setProcesses (f : gmap string ptr -> gmap string ptr) (st : State) : State :=
  mkState (f (processes st)) (heap st) (mutex st) (tasks st) (pidFiles st)
    (spawned st) (signalled st).

Definition setHeap (f : list ManagedProcess -> list ManagedProcess) (st : State) : State :=
  mkState (processes st) (f (heap st)) (mutex st) (tasks st) (pidFiles st)
    (spawned st) (signalled st).

Definition setMutex (b : bool) (st : State) : State :=
  mkState (processes st) (heap st) b (tasks st) (pidFiles st)
    (spawned st) (signalled st).

Definition addTask (t : task) (st : State) : State :=
  mkState (processes st) (heap st) (mutex st) (tasks st ++ [t]) (pidFiles st)
    (spawned st) (signalled st).

Definition setPidFiles (f : gmap string Z -> gmap string Z) (st : State) : State :=
  mkState (processes st) (heap st) (mutex st) (tasks st) (f (pidFiles st))
    (spawned st) (signalled st).

Definition logSpawn (name : string) (pid : Z) (st : State) : State :=
  mkState (processes st) (heap st) (mutex st) (tasks st) (pidFiles st)
    (spawned st ++ [(name, pid)]) (signalled st).

Definition logSignal (pid : Z) (force : bool) (st : State) : State :=
  mkState (processes st) (heap st) (mutex st) (tasks st) (pidFiles st)
    (spawned st) (signalled st ++ [(pid, force)]).

(** How a call ends. *)
Inductive outcome (A : Type) :=
| Returned (a : A) (st : State)
| Blocked (st : State)    (* waits on pm.mutex for ever *)
| Panicked (st : State)   (* nil pointer dereference *)
| OutOfFuel.
Arguments Returned {A} a st.
Arguments Blocked {A} st.
Arguments Panicked {A} st.
Arguments OutOfFuel {A}.

(** [defer pm.mutex.Unlock()]: runs when the function returns or panics. *)
Definition deferUnlock {A} (o : outcome A) : outcome A :=
  match o with
  | Returned a st => Returned a (setMutex false st)
  | Panicked st => Panicked (setMutex false st)
  | Blocked st => Blocked st
  | OutOfFuel => OutOfFuel
  end.

(** Go's [int] on the 64-bit targets the tool is built for. *)
Definition wrap64 (z : Z) : Z := (z + 2 ^ 63) mod 2 ^ 64 - 2 ^ 63.

(** [fmt.Sprintf("%d", i)] for a non-negative [i]. *)
Definition itoa (i : nat) : string := NilEmpty.string_of_uint (Nat.to_uint i).

(** [filepath.IsAbs] on POSIX. *)
Definition IsAbs (path : string) : bool :=
  match path with
  | String c _ => Ascii.eqb c "/"%char
  | EmptyString => false
  end.

Definition nonEmpty (s : string) : bool := negb (String.eqb s "").

(** [setProcessUser]. *)
Definition setProcessUser (os : OS) (username groupname : string) : option error :=
  if negb (os_lookupUser os username) then Some ErrUserLookup
  else if nonEmpty groupname then
    if os_lookupGroup os groupname then None else Some ErrUserLookup
  else None.

(** The path [setupLogging] opens for a stream whose configured path is
    [configured] and whose default file name ends in [suffix]. *)
Definition openedLogPath (os : OS) (logsPath name configured suffix : string) : string :=
  if String.eqb configured "" then os_join os logsPath (name +:+ suffix)
  else if negb (IsAbs configured) then os_join os logsPath configured
  else configured.

(** [setupLogging]. *)
Definition setupLogging (os : OS) (procConfig : ProcessConfig) (logsPath : string)
  : result (list (string * string)) :=
  if negb (os_mkdirAll os logsPath) then Err ErrMkdir
  else
    let stdoutPath :=
      openedLogPath os logsPath (Name procConfig) (Stdout (Log procConfig)) ".out.log" in
    if negb (os_openFile os stdoutPath) then Err (ErrOpenLog stdoutPath)
    else
      let stderrPath :=
        openedLogPath os logsPath (Name procConfig) (Stderr (Log procConfig)) ".err.log" in
      if negb (os_openFile os stderrPath) then Err (ErrOpenLog stderrPath)
      else Ok [("stdout", stdoutPath); ("stderr", stderrPath)].

(** [proc.Status == "running"] for the record registered under [name]. *)
Definition registeredRunning (st : State) (name : string) : bool :=
  match processes st !! name with
  | Some p =>
      match heap st !! p with
      | Some proc => String.eqb (Status proc) "running"
      | None => false
      end
  | None => false
  end.

(** The worker descriptor of index [i]. *)
Definition workerConfig (procConfig : ProcessConfig) (i : nat) : ProcessConfig :=
  withInstances
    (withName procConfig (Name procConfig +:+ "-worker-" +:+ itoa i)) 0.

(** The loop of [startClusterProcess]: [n] iterations starting at index [i];
    [master] is the pointer of the master record, [start] the worker start. *)
Fixpoint startWorkers (start : ProcessConfig -> State -> outcome (result ptr))
    (procConfig : ProcessConfig) (master : ptr) (i n : nat) (st : State)
  : outcome unit :=
  match n with
  | O => Returned tt st
  | S n' =>
      match start (workerConfig procConfig i) st with
      | Returned (Ok w) st1 =>
          startWorkers start procConfig master (S i) n'
            (setHeap (fun h =>
               match h !! master with
               | Some m =>
                   <[master := mkProc (Config m) (Cmd m) (PID m) (Status m)
                       (Restarts m) (LogFiles m) (ClusterProcs m ++ [w])]> h
               | None => h
               end) st1)
      | Returned (Err _) st1 =>
          startWorkers start procConfig master (S i) n' st1
      | Blocked st1 => Blocked st1
      | Panicked st1 => Panicked st1
      | OutOfFuel => OutOfFuel
      end
  end.

(** [startClusterProcess], over the function that starts one worker. *)
Definition startClusterProcess (start : ProcessConfig -> State -> outcome (result ptr))
    (procConfig : ProcessConfig) (st : State) : outcome (result ptr) :=
  let instances :=
    if Instances (Cluster procConfig) <=? 0 then 1
    else Instances (Cluster procConfig) in
  let master := length (heap st) in
  let masterProc := mkProc procConfig None 0 "running" 0 [] [] in
  let st0 := setHeap (fun h => h ++ [masterProc]) st in
  match startWorkers start procConfig master 0 (Z.to_nat instances) st0 with
  | Returned _ st1 =>
      Returned (Ok master)
        (setProcesses (fun m => <[Name procConfig := master]> m) st1)
  | Blocked st1 => Blocked st1
  | Panicked st1 => Panicked st1
  | OutOfFuel => OutOfFuel
  end.

(** [StartProcess].  [fuel] bounds the nesting of calls (a cluster start calls
    [StartProcess] for each worker); two levels are all the code can reach. *)
Fixpoint StartProcess (fuel : nat) (os : OS) (logsPath : string)
    (procConfig : ProcessConfig) (st : State) : outcome (result ptr) :=
  match fuel with
  | O => OutOfFuel
  | S fuel' =>
      if mutex st then Blocked st
      else
        deferUnlock
          (let st := setMutex true st in
           if registeredRunning st (Name procConfig) then
             Returned (Err (ErrAlreadyRunning (Name procConfig))) st
           else if 1 <? Instances (Cluster procConfig) then
             startClusterProcess (StartProcess fuel' os logsPath) procConfig st
           else if nonEmpty (PreStart (Scripts procConfig))
                   && negb (os_runScript os (PreStart (Scripts procConfig))) then
             Returned (Err ErrPreStart) st
           else
             match (if nonEmpty (User procConfig)
                    then setProcessUser os (User procConfig) (Group procConfig)
                    else None) with
             | Some e => Returned (Err e) st
             | None =>
                 match setupLogging os procConfig logsPath with
                 | Err e => Returned (Err e) st
                 | Ok logFiles =>
                     match os_cmdStart os procConfig with
                     | None => Returned (Err ErrSpawn) st
                     | Some pid =>
                         let p := length (heap st) in
                         let proc := mkProc procConfig (Some pid) pid "running" 0 logFiles [] in
                         let st := logSpawn (Name procConfig) pid st in
                         let st := setHeap (fun h => h ++ [proc]) st in
                         let st :=
                           if os_writePID os (Name procConfig)
                           then setPidFiles (fun f => <[Name procConfig := pid]> f) st
                           else st in
                         let st := setProcesses (fun m => <[Name procConfig := p]> m) st in
                         let st :=
                           if nonEmpty (PostStart (Scripts procConfig))
                           then addTask (TPostStart (PostStart (Scripts procConfig))) st
                           else st in
                         Returned (Ok p) (addTask (TMonitor p) st)
                     end
                 end
             end)
  end.

(** [proc.Status = s] on the record behind [p]. *)
Definition withStatus (s : string) (m : ManagedProcess) : ManagedProcess :=
  mkProc (Config m) (Cmd m) (PID m) s (Restarts m) (LogFiles m) (ClusterProcs m).

Definition setStatus (p : ptr) (s : string) (st : State) : State :=
  setHeap (alter (withStatus s) p) st.

(** [proc.Restarts++]. *)
Definition incRestarts (m : ManagedProcess) : ManagedProcess :=
  mkProc (Config m) (Cmd m) (PID m) (Status m) (wrap64 (Restarts m + 1))
    (LogFiles m) (ClusterProcs m).

(** The worker loop of [StopProcess]; [stop] is the recursive call.  An error
    returned for a worker is logged and the loop goes on. *)
Fixpoint stopWorkers (stop : string -> bool -> State -> outcome (option error))
    (workers : list ptr) (force : bool) (st : State) : outcome unit :=
  match workers with
  | [] => Returned tt st
  | w :: ws =>
      match heap st !! w with
      | None => Panicked st
      | Some workerProc =>
          match stop (Name (Config workerProc)) force st with
          | Returned _ st1 => stopWorkers stop ws force st1
          | Blocked st1 => Blocked st1
          | Panicked st1 => Panicked st1
          | OutOfFuel => OutOfFuel
          end
      end
  end.

(** [StopProcess].  The registry lock is taken for the lookup and released
    before anything else happens; the waiter goroutine is queued as a task. *)
Fixpoint StopProcess (fuel : nat) (os : OS) (name : string) (force : bool)
    (st : State) : outcome (option error) :=
  match fuel with
  | O => OutOfFuel
  | S fuel' =>
      if mutex st then Blocked st
      else
        match processes st !! name with
        | None => Returned (Some (ErrNotFound name)) st
        | Some p =>
            match heap st !! p with
            | None => Panicked st
            | Some proc =>
                if (0 <? length (ClusterProcs proc))%nat then
                  match stopWorkers (StopProcess fuel' os) (ClusterProcs proc) force st with
                  | Returned _ st1 =>
                      let st2 := setStatus p "stopped" st1 in
                      if mutex st2 then Blocked st2
                      else Returned None (setProcesses (delete name) st2)
                  | Blocked st1 => Blocked st1
                  | Panicked st1 => Panicked st1
                  | OutOfFuel => OutOfFuel
                  end
                else
                  (* the pre-stop hook runs when defined; its failure is only logged *)
                  match Cmd proc with
                  | None => Panicked st
                  | Some pid =>
                      let st1 := logSignal pid force st in
                      if negb (os_signal os pid force) then Returned (Some ErrSignal) st1
                      else
                        Returned None
                          (addTask (TStopWait p name) (setStatus p "stopped" st1))
                  end
            end
        end
  end.

(** The goroutine launched by [StopProcess], from the moment [proc.Cmd.Wait]
    has returned: close the logs, delete the PID file, run the post-stop hook
    (failure only logged), and delete the registry entry for [name]. *)
Definition stopWaiter (name : string) (st : State) : outcome unit :=
  let st1 := setPidFiles (delete name) st in
  if mutex st1 then Blocked st1
  else Returned tt (setProcesses (delete name) st1).

(** The restart decision of [monitorProcess]: [waitErr] tells whether
    [proc.Cmd.Wait] returned a non-nil error. *)
Definition shouldRestart (cfg : ProcessConfig) (waitErr : bool) : bool :=
  if String.eqb (Restart cfg) "always" then true
  else if String.eqb (Restart cfg) "on-failure" && waitErr then true
  else false.

Definition underCap (cfg : ProcessConfig) (restarts : Z) : bool :=
  (MaxRestarts cfg =? 0) || (restarts <? MaxRestarts cfg).

(** [monitorProcess], from the moment [proc.Cmd.Wait] has returned.  The sleep
    of [RestartDelay] seconds changes nothing in the state. *)
Definition monitorProcess (fuel : nat) (os : OS) (logsPath : string) (p : ptr)
    (waitErr : bool) (st : State) : outcome unit :=
  match heap st !! p with
  | None => Panicked st
  | Some proc =>
      let st1 := setStatus p "stopped" st in
      if shouldRestart (Config proc) waitErr && underCap (Config proc) (Restarts proc) then
        let st2 := setHeap (alter incRestarts p) st1 in
        match StartProcess fuel os logsPath (Config proc) st2 with
        | Returned _ st3 => Returned tt st3
        | Blocked st3 => Blocked st3
        | Panicked st3 => Panicked st3
        | OutOfFuel => OutOfFuel
        end
      else
        let st2 := setPidFiles (delete (Name (Config proc))) st1 in
        if mutex st2 then Blocked st2
        else Returned tt (setProcesses (delete (Name (Config proc))) st2)
  end.

(** [GetProcess]. *)
Definition GetProcess (name : string) (st : State) : outcome (result ptr) :=
  if mutex st then Blocked st
  else
    match processes st !! name with
    | Some p => Returned (Ok p) st
    | None => Returned (Err (ErrNotFound name)) st
    end.

(** [ListProcesses].  Go iterates a map in an unspecified order; the model
    takes the order of [map_to_list]. *)
Definition ListProcesses (st : State) : outcome (list ptr) :=
  if mutex st then Blocked st
  else Returned (snd <$> map_to_list (processes st)) st.

(** *** Log tail *)

(** What [os.Open] followed by a [bufio.Scanner] loop finds in a file: the
    lines the scanner yields before it stops, and whether [scanner.Err()] is
    non-nil at that point (a read error, or a line over the token limit). *)
Record ScannedFile := mkScanned {
  scanned : list string;
  scanFailed : bool
}.

(** [readLastLines]; both return values are kept, as Go returns them. *)
Definition readLastLines (files : gmap string ScannedFile) (filePath : string) (n : Z)
  : list string * option error :=
  match files !! filePath with
  | None => ([], Some (ErrOpen filePath))
  | Some file =>
      if n <=? 0 then
        (scanned file, if scanFailed file then Some ErrScan else None)
      else if scanFailed file then ([], Some ErrScan)
      else
        let lines := scanned file in
        if Z.of_nat (length lines) <=? n then (lines, None)
        else (drop (length lines - Z.to_nat n) lines, None)
  end.

(** The path [GetLogs] reads for a stream. *)
Definition logPath (os : OS) (logsPath : string) (cfg : ProcessConfig) (stream : string)
  : option string :=
  if String.eqb stream "stdout" then
    Some (if nonEmpty (Stdout (Log cfg)) then Stdout (Log cfg)
          else os_join os logsPath (Name cfg +:+ ".out.log"))
  else if String.eqb stream "stderr" then
    Some (if nonEmpty (Stderr (Log cfg)) then Stderr (Log cfg)
          else os_join os logsPath (Name cfg +:+ ".err.log"))
  else None.

(** [GetLogs]. *)
Definition GetLogs (os : OS) (logsPath : string) (files : gmap string ScannedFile)
    (name stream : string) (lines : Z) (st : State)
  : outcome (list string * option error) :=
  match GetProcess name st with
  | Returned (Err e) st1 => Returned ([], Some e) st1
  | Returned (Ok p) st1 =>
      match heap st1 !! p with
      | None => Panicked st1
      | Some proc =>
          if (0 <? length (ClusterProcs proc))%nat then
            Returned ([], Some ErrClusterMaster) st1
          else
            match logPath os logsPath (Config proc) stream with
            | None => Returned ([], Some (ErrInvalidStream stream)) st1
            | Some path => Returned (readLastLines files path lines) st1
            end
      end
  | Blocked st1 => Blocked st1
  | Panicked st1 => Panicked st1
  | OutOfFuel => OutOfFuel
  end.

(** *** Concrete surroundings used by the examples *)

(** An operating system on which everything succeeds; the child of the
    [n]-th spawn gets pid [100 + n]. *)
Definition osAllOk (n : Z) : OS :=
  mkOS (fun _ => true) (fun _ => true) (fun _ => true) (fun _ => true)
    (fun _ => true) (fun _ => Some (100 + n)) (fun _ _ => true) (fun _ => true)
    (fun a b => a +:+ "/" +:+ b).

Definition plainConfig (name restart : string) (maxRestarts instances : Z) : ProcessConfig :=
  mkProcessConfig name "sleep" ["10"] "" [] restart maxRestarts 0
    (mkCluster instances "") (mkLog "" "" false "" 0) false "" ""
    (mkScripts "" "" "" "").

(** *** Interleavings

    One event is one caller's request or one goroutine running from the return
    of its [Wait] to its end.  A goroutine event fires only while its task is
    pending, and retires the task. *)

Global Instance task_eq_dec : EqDecision task.
Proof. solve_decision. Defined.

Fixpoint retire (t : task) (ts : list task) : list task :=
  match ts with
  | [] => []
  | t' :: ts' => if decide (t = t') then ts' else t' :: retire t ts'
  end.

Definition retireTask (t : task) (st : State) : State :=
  mkState (processes st) (heap st) (mutex st) (retire t (tasks st)) (pidFiles st)
    (spawned st) (signalled st).

Inductive event :=
| EvStart (os : OS) (procConfig : ProcessConfig)
| EvStop (os : OS) (name : string) (force : bool)
| EvExit (os : OS) (p : ptr) (waitErr : bool)
| EvStopWaitDone (p : ptr) (name : string).

Definition discard {A} (o : outcome A) : outcome unit :=
  match o with
  | Returned _ st => Returned tt st
  | Blocked st => Blocked st
  | Panicked st => Panicked st
  | OutOfFuel => OutOfFuel
  end.

Definition step (logsPath : string) (ev : event) (st : State) : outcome unit :=
  match ev with
  | EvStart os procConfig => discard (StartProcess 2 os logsPath procConfig st)
  | EvStop os name force => discard (StopProcess 2 os name force st)
  | EvExit os p waitErr =>
      if decide (TMonitor p ∈ tasks st)
      then monitorProcess 2 os logsPath p waitErr (retireTask (TMonitor p) st)
      else Returned tt st
  | EvStopWaitDone p name =>
      if decide (TStopWait p name ∈ tasks st)
      then stopWaiter name (retireTask (TStopWait p name) st)
      else Returned tt st
  end.

Fixpoint run (logsPath : string) (evs : list event) (st : State) : outcome unit :=
  match evs with
  | [] => Returned tt st
  | ev :: evs' =>
      match step logsPath ev st with
      | Returned _ st1 => run logsPath evs' st1
      | o => o
      end
  end.

End Core.

(** ** api: the HTTP handlers over the process manager *)

Module Api.
Import Config Core.

(** [isClusterWorker]: [len(name) > 8 && name[len(name)-8:] == "-worker-"]. *)
Definition isClusterWorker (name : string) : bool :=
  (8 <? String.length name)%nat
  && String.eqb (substring (String.length name - 8) 8 name) "-worker-".

(** The filter loop of the [listProcesses] handler. *)
Fixpoint filterTopLevel (h : list ManagedProcess) (procs : list ptr) : list ptr :=
  match procs with
  | [] => []
  | p :: rest =>
      match h !! p with
      | Some proc =>
          if negb (isClusterWorker (Name (Config proc)))
          then p :: filterTopLevel h rest
          else filterTopLevel h rest
      | None => filterTopLevel h rest
      end
  end.

(** The [listProcesses] handler: the pointers whose records are sent back. *)
Definition listProcesses (st : State) : outcome (list ptr) :=
  match ListProcesses st with
  | Returned procs st1 => Returned (filterTopLevel (heap st1) procs) st1
  | o => o
  end.

(** [listClusters]: the records with at least one worker. *)
Definition listClusters (st : State) : outcome (list ptr) :=
  match ListProcesses st with
  | Returned procs st1 =>
      Returned
        (List.filter
           (fun p =>
              match heap st1 !! p with
              | Some proc => (0 <? length (ClusterProcs proc))%nat
              | None => false
              end) procs) st1
  | o => o
  end.

End Api.

(** ** The script service of the command-line tool *)

Module Scripts.

Record Script := mkScript {
  Name : string;
  File : string;
  Schedule : string;
  Process : string
}.

Inductive error :=
| ErrExists (name : string)
| ErrNoFile (file : string)
| ErrNoProcess (process : string)
| ErrWrite
| ErrSchedule
| ErrScriptNotFound (name : string)
| ErrRemove.

(** What the surroundings answer. *)
Record Env := mkEnv {
  (** [os.IsNotExist] of the error of [os.Stat(file)]. *)
  notExist : string -> bool;
  (** [processService.Get(process)] finds the process. *)
  processKnown : string -> bool;
  (** The cron parser accepts the expression. *)
  cronAccepts : string -> bool;
  (** [os.WriteFile] of the script's configuration file succeeds. *)
  writeOk : string -> bool;
  (** [os.Remove] of the script's configuration file succeeds. *)
  removeOk : string -> bool
}.

Record State := mkState {
  (** [scriptsDir/<name>.json], as written by [saveScript] *)
  stored : gmap string Script;
  (** the entries of the cron scheduler, oldest first *)
  scheduled : list Script
}.

(** [Get]. *)
Definition Get (name : string) (st : State) : option Script := stored st !! name.

(** [scheduleScript]. *)
Definition scheduleScript (env : Env) (script : Script) (st : State)
  : option error * State :=
  if String.eqb (Schedule script) "" then (None, st)
  else if cronAccepts env (Schedule script)
  then (None, mkState (stored st) (scheduled st ++ [script]))
  else (Some ErrSchedule, st).

(** [saveScript]. *)
Definition saveScript (env : Env) (script : Script) (st : State)
  : option error * State :=
  if writeOk env (Name script)
  then (None, mkState (<[Name script := script]> (stored st)) (scheduled st))
  else (Some ErrWrite, st).

(** [Add]. *)
Definition Add (env : Env) (name file schedule process : string) (st : State)
  : option error * State :=
  match Get name st with
  | Some _ => (Some (ErrExists name), st)
  | None =>
      if notExist env file then (Some (ErrNoFile file), st)
      else if negb (String.eqb process "") && negb (processKnown env process)
      then (Some (ErrNoProcess process), st)
      else
        let script := mkScript name file schedule process in
        match saveScript env script st with
        | (Some e, st1) => (Some e, st1)
        | (None, st1) =>
            if negb (String.eqb schedule "") then
              match scheduleScript env script st1 with
              | (Some e, st2) => (Some e, st2)
              | (None, st2) => (None, st2)
              end
            else (None, st1)
        end
  end.

(** [Remove]. *)
Definition Remove (env : Env) (name : string) (st : State) : option error * State :=
  match Get name st with
  | None => (Some (ErrScriptNotFound name), st)
  | Some _ =>
      if removeOk env name
      then (None, mkState (delete name (stored st)) (scheduled st))
      else (Some ErrRemove, st)
  end.

End Scripts.

(** ** The words of the claims, as predicates over the embedding *)

Module Claims.
Import Config Core.

(** The pre-start hook is defined and returns non-zero. *)
Definition preStartFails (os : OS) (cfg : ProcessConfig) : bool :=
  nonEmpty (PreStart (Scripts cfg)) && negb (os_runScript os (PreStart (Scripts cfg))).

(** A user is configured and the user or group lookup fails. *)
Definition userLookupFails (os : OS) (cfg : ProcessConfig) : bool :=
  nonEmpty (User cfg)
  && match setProcessUser os (User cfg) (Group cfg) with
     | Some _ => true
     | None => false
     end.

(** Opening one of the two log files fails. *)
Definition logOpenFails (os : OS) (logsPath : string) (cfg : ProcessConfig) : bool :=
  match setupLogging os cfg logsPath with
  | Err _ => true
  | Ok _ => false
  end.

(** Spawning the child fails. *)
Definition spawnFails (os : OS) (cfg : ProcessConfig) : bool :=
  match os_cmdStart os cfg with
  | None => true
  | Some _ => false
  end.

Definition startFails (os : OS) (logsPath : string) (cfg : ProcessConfig) : bool :=
  preStartFails os cfg || userLookupFails os cfg
  || logOpenFails os logsPath cfg || spawnFails os cfg.

(** The restart policy allows a restart after this exit. *)
Definition policyAllows (cfg : ProcessConfig) (waitErr : bool) : Prop :=
  Restart cfg = "always" \/ (Restart cfg = "on-failure" /\ waitErr = true).

(** The restart cap leaves room for one more restart. *)
Definition capOpen (cfg : ProcessConfig) (restarts : Z) : Prop :=
  MaxRestarts cfg = 0 \/ restarts < MaxRestarts cfg.

(** [n] failing exits in a row, each observed by the monitor of the record
    that is registered under [name] at that moment. *)
Fixpoint failingExits (os : OS) (logsPath name : string) (n : nat) (st : State)
  : outcome unit :=
  match n with
  | O => Returned tt st
  | S n' =>
      match processes st !! name with
      | None => Returned tt st
      | Some p =>
          match monitorProcess 2 os logsPath p true st with
          | Returned _ st1 => failingExits os logsPath name n' st1
          | o => o
          end
      end
  end.

(** The record registered for [cfg] is live and its counter is zero. *)
Definition freshlyStarted (cfg : ProcessConfig) (st : State) : Prop :=
  mutex st = false
  /\ exists p proc,
       processes st !! Name cfg = Some p
       /\ heap st !! p = Some proc
       /\ Config proc = cfg
       /\ Restarts proc = 0.

(** An operating system on which no child can be spawned. *)
Definition osNoSpawn : OS :=
  mkOS (fun _ => true) (fun _ => true) (fun _ => true) (fun _ => true)
    (fun _ => true) (fun _ => None) (fun _ _ => true) (fun _ => true)
    (fun a b => a +:+ "/" +:+ b).

(** The state a start of the cluster [web] with two instances is written to
    build: the master record without a command, and one running record per
    worker, each with its monitor goroutine. *)
Definition clusterState : State :=
  mkState
    (<["web" := 0%nat]> (<["web-worker-0" := 1%nat]> (<["web-worker-1" := 2%nat]> ∅)))
    [ mkProc (plainConfig "web" "" 0 2) None 0 "running" 0 [] [1%nat; 2%nat];
      mkProc (workerConfig (plainConfig "web" "" 0 2) 0) (Some 100) 100 "running" 0
        [("stdout", "/logs/web-worker-0.out.log"); ("stderr", "/logs/web-worker-0.err.log")] [];
      mkProc (workerConfig (plainConfig "web" "" 0 2) 1) (Some 101) 101 "running" 0
        [("stdout", "/logs/web-worker-1.out.log"); ("stderr", "/logs/web-worker-1.err.log")] [] ]
    false
    [TMonitor 1%nat; TMonitor 2%nat]
    (<["web-worker-0" := 100]> (<["web-worker-1" := 101]> ∅))
    [("web-worker-0", 100); ("web-worker-1", 101)]
    [].

(** C6 in the words of the claim: whenever the parent entry is gone, no record
    is left under any of the worker names. *)
Definition childrenGoneBeforeParent (st : State) (parent : string) (workers : list string)
  : Prop :=
  processes st !! parent = None ->
  forall w, w ∈ workers -> processes st !! w = None.

(** The status of the record behind a pointer. *)
Definition statusAt (st : State) (p : ptr) : option string :=
  Status <$> heap st !! p.

(** The restart counter of the record behind a pointer. *)
Definition restartsAt (st : State) (p : ptr) : option Z :=
  Restarts <$> heap st !! p.

(** One running process [svc] and a three-line stdout log for it. *)
Definition svcState : State :=
  mkState (<["svc" := 0%nat]> ∅)
    [mkProc (plainConfig "svc" "always" 0 0) (Some 100) 100 "running" 0 [] []]
    false [] ∅ [] [].

Definition svcLogs : gmap string ScannedFile :=
  {["/logs/svc.out.log" := mkScanned ["a"; "b"; "c"] false]}.

(** A record with its status blanked: what a stop leaves untouched. *)
Definition eraseStatus (m : ManagedProcess) : ManagedProcess := withStatus "" m.

(** A worker as the cluster start leaves it: registered under its own name,
    with a started command, and no cluster itself. *)
Definition workerOk (st : State) (w : ptr) : Prop :=
  exists wp pid,
    heap st !! w = Some wp
    /\ processes st !! Name (Config wp) = Some w
    /\ ClusterProcs wp = []
    /\ Cmd wp = Some pid.

(** The pids of the commands behind a list of records, in list order. *)
Definition workerPids (st : State) (ws : list ptr) : list Z :=
  omap (fun w => heap st !! w ≫= Cmd) ws.

(** What one stop request may change: statuses, the signal log, the tasks. *)
Definition sameButStatus (st st1 : State) : Prop :=
  processes st1 = processes st
  /\ mutex st1 = mutex st
  /\ eraseStatus <$> heap st1 = eraseStatus <$> heap st
  /\ (forall t, t ∈ tasks st -> t ∈ tasks st1).

(** The last byte of a name. *)
Fixpoint lastChar (s : string) : option ascii :=
  match s with
  | EmptyString => None
  | String c EmptyString => Some c
  | String _ s' => lastChar s'
  end.

Definition isDigit (c : ascii) : bool :=
  match c with
  | "0"%char | "1"%char | "2"%char | "3"%char | "4"%char
  | "5"%char | "6"%char | "7"%char | "8"%char | "9"%char => true
  | _ => false
  end.

(** A cron parser that accepts the one expression the examples schedule. *)
Definition scriptEnv : Scripts.Env :=
  Scripts.mkEnv (fun _ => false) (fun _ => true)
    (fun e => String.eqb e "0 */5 * * * *") (fun _ => true) (fun _ => true).

End Claims.

(** ** config: the defaults of a loaded descriptor *)

Module ConfigLoad.
Import Config.

(** The defaults [LoadProcessConfig] fills in after unmarshalling. *)
Definition withDefaults (c : ProcessConfig) : ProcessConfig :=
  mkProcessConfig (Name c) (Command c) (Args c) (WorkingDir c) (Environment c)
    (if String.eqb (Restart c) "" then "on-failure" else Restart c)
    (if MaxRestarts c =? 0 then 10 else MaxRestarts c)
    (if RestartDelay c =? 0 then 3 else RestartDelay c)
    (Cluster c) (Log c) (AutoStart c) (User c) (Group c) (Scripts c).

(** [LoadProcessConfig]; [readConfig] stands for reading the file and
    unmarshalling it ([None] when either fails). *)
Definition LoadProcessConfig (readConfig : string -> option ProcessConfig)
    (filePath : string) : option ProcessConfig :=
  match readConfig filePath with
  | None => None
  | Some c => Some (withDefaults c)
  end.

End ConfigLoad.

(** ** core: restart and recovery *)

Module CoreExt.
Import Config Core ConfigLoad.

(** The conversion [int32(pid)]. *)
Definition int32 (z : Z) : Z := (z + 2 ^ 31) mod 2 ^ 32 - 2 ^ 31.

(** What the surroundings answer while the PID directory is scanned. *)
Record Boot := mkBoot {
  (** [os.ReadDir(processesDir)] succeeds. *)
  boot_readDir : bool;
  (** [utils.IsProcessRunning]. *)
  boot_alive : Z -> bool;
  (** [os.IsNotExist] of the error of [os.Stat(configPath)]. *)
  boot_notExist : string -> bool;
  (** Reading and unmarshalling a [.gem] file. *)
  boot_readConfig : string -> option ProcessConfig;
  (** [filepath.Join]. *)
  boot_join : string -> string -> string
}.

Inductive bootError :=
| ErrReadDir.

(** The PID file of an entry holds the pid of a live process. *)
Definition livePid (b : Boot) (entry : string * Z) : Prop :=
  boot_alive b (int32 (snd entry)) = true.

Global Instance livePid_dec b entry : Decision (livePid b entry).
Proof. unfold livePid. apply _. Defined.

(** [utils.GetRunningProcesses] over the PID files that parse (the state keeps
    the number each file holds): the live ones are returned with their pid as
    an [int32], the stale ones are deleted. *)
Definition GetRunningProcesses (b : Boot) (st : State)
  : option (gmap string Z) * State :=
  if negb (boot_readDir b) then (None, st)
  else
    (Some (int32 <$> filter (livePid b) (pidFiles st)),
     setPidFiles (filter (livePid b)) st).

(** The descriptor [LoadRunningProcesses] finds for a name, if any. *)
Definition configFor (b : Boot) (processesPath name : string) : option ProcessConfig :=
  let configPath := boot_join b processesPath (name +:+ ".gem") in
  if boot_notExist b configPath then None
  else LoadProcessConfig (boot_readConfig b) configPath.

(** The loop of [LoadRunningProcesses] over the running processes. *)
Fixpoint loadEach (b : Boot) (processesPath : string) (entries : list (string * Z))
    (st : State) : outcome unit :=
  match entries with
  | [] => Returned tt st
  | (name, pid) :: rest =>
      match configFor b processesPath name with
      | None => loadEach b processesPath rest st
      | Some procConfig =>
          if mutex st then Blocked st
          else
            loadEach b processesPath rest
              (setProcesses (fun m => <[name := length (heap st)]> m)
                 (setHeap (fun h => h ++ [mkProc procConfig None pid "running" 0 [] []]) st))
      end
  end.

(** [LoadRunningProcesses].  Go ranges over the map of running processes in an
    unspecified order; the model takes the order of [map_to_list]. *)
Definition LoadRunningProcesses (b : Boot) (processesPath : string) (st : State)
  : outcome (option bootError) :=
  match GetRunningProcesses b st with
  | (None, st1) => Returned (Some ErrReadDir) st1
  | (Some running, st1) =>
      match loadEach b processesPath (map_to_list running) st1 with
      | Returned _ st2 => Returned None st2
      | Blocked st2 => Blocked st2
      | Panicked st2 => Panicked st2
      | OutOfFuel => OutOfFuel
      end
  end.

(** The worker loop of [RestartProcess]; an error for a worker is logged and
    the loop goes on. *)
Fixpoint restartWorkers (restart : string -> State -> outcome (option error))
    (workers : list ptr) (st : State) : outcome unit :=
  match workers with
  | [] => Returned tt st
  | w :: ws =>
      match heap st !! w with
      | None => Panicked st
      | Some workerProc =>
          match restart (Name (Config workerProc)) st with
          | Returned _ st1 => restartWorkers restart ws st1
          | Blocked st1 => Blocked st1
          | Panicked st1 => Panicked st1
          | OutOfFuel => OutOfFuel
          end
      end
  end.

(** [RestartProcess].  The sleep of [RestartDelay] seconds between the stop
    and the start changes nothing in the state by itself; the goroutines that
    may run meanwhile (the stop waiter, the monitor) are events of their own,
    and this is the schedule in which none of them runs before the start,
    that is, the old child outlives the delay. *)
Fixpoint RestartProcess (fuel : nat) (os : OS) (logsPath name : string) (st : State)
  : outcome (option error) :=
  match fuel with
  | O => OutOfFuel
  | S fuel' =>
      if mutex st then Blocked st
      else
        match processes st !! name with
        | None => Returned (Some (ErrNotFound name)) st
        | Some p =>
            match heap st !! p with
            | None => Panicked st
            | Some proc =>
                if (0 <? length (ClusterProcs proc))%nat then
                  match restartWorkers (RestartProcess fuel' os logsPath)
                          (ClusterProcs proc) st with
                  | Returned _ st1 => Returned None st1
                  | Blocked st1 => Blocked st1
                  | Panicked st1 => Panicked st1
                  | OutOfFuel => OutOfFuel
                  end
                else
                  match StopProcess (S fuel') os name false st with
                  | Returned (Some e) st1 => Returned (Some e) st1
                  | Returned None st1 =>
                      match StartProcess (S fuel') os logsPath (Config proc) st1 with
                      | Returned (Ok _) st2 => Returned None st2
                      | Returned (Err e) st2 => Returned (Some e) st2
                      | Blocked st2 => Blocked st2
                      | Panicked st2 => Panicked st2
                      | OutOfFuel => OutOfFuel
                      end
                  | Blocked st1 => Blocked st1
                  | Panicked st1 => Panicked st1
                  | OutOfFuel => OutOfFuel
                  end
            end
        end
  end.

End CoreExt.

(** ** api: the cluster handlers *)

Module ApiExt.
Import Config Core.

Inductive response (A : Type) :=
| Status200 (a : A)
| Status400
| Status404 (e : error).
Arguments Status200 {A} a.
Arguments Status400 {A}.
Arguments Status404 {A} e.

(** The [getCluster] handler. *)
Definition getCluster (name : string) (st : State) : outcome (response ptr) :=
  match GetProcess name st with
  | Returned (Err e) st1 => Returned (Status404 e) st1
  | Returned (Ok p) st1 =>
      match heap st1 !! p with
      | None => Panicked st1
      | Some proc =>
          if (length (ClusterProcs proc) =? 0)%nat then Returned Status400 st1
          else Returned (Status200 p) st1
      end
  | Blocked st1 => Blocked st1
  | Panicked st1 => Panicked st1
  | OutOfFuel => OutOfFuel
  end.

End ApiExt.

(** ** The script service: listing and the scheduling done at start-up *)

Module ScriptsExt.
Import Scripts.

(** [List]: every stored script whose file reads back, or an error when
    [filepath.Glob] rejects the pattern ([globOk] false).  Glob yields the
    files sorted by name; the model takes the order of [map_to_list]. *)
Definition List (globOk : bool) (st : State) : option (list Script) :=
  if globOk then Some (snd <$> map_to_list (stored st)) else None.

(** The loop of [loadScheduledScripts]; the error of [scheduleScript] is
    dropped. *)
Fixpoint scheduleEach (env : Env) (scripts : list Script) (st : State) : State :=
  match scripts with
  | [] => st
  | script :: rest =>
      scheduleEach env rest
        (if negb (String.eqb (Schedule script) "")
         then snd (scheduleScript env script st)
         else st)
  end.

(** [loadScheduledScripts]. *)
Definition loadScheduledScripts (env : Env) (globOk : bool) (st : State) : State :=
  match List globOk st with
  | None => st
  | Some scripts => scheduleEach env scripts st
  end.

(** [NewScriptService] over the files found in the scripts directory: a new
    scheduler, then [loadScheduledScripts]. *)
Definition NewScriptService (env : Env) (globOk : bool) (files : gmap string Script)
  : State :=
  loadScheduledScripts env globOk (mkState files []).

End ScriptsExt.

(** ** The process service of the command-line tool *)

Module Service.

(** The [Process] struct. *)
Module Process.
Record t := mk {
  Name : string;
  Cmd : string;
  Cwd : string;
  Pid : Z;
  Status : string;
  Restart : bool;
  MaxRestarts : Z;
  Restarts : Z;
  Env : list string;
  StartTime : Z
}.
End Process.
Abbreviation Process := Process.t.

Inductive error :=
| ErrExists (name : string)
| ErrNotFound (name : string)
| ErrWriteConfig
| ErrInvalidCommand
| ErrCreateLog (file : string)
| ErrStart
| ErrWritePid
| ErrAlreadyStopped (name : string)
| ErrFindProcess
| ErrKill.

(** What the surroundings answer. *)
Record OS := mkOS {
  (** [strings.Fields]. *)
  os_fields : string -> list string;
  (** [os.Create] of a log file in the logs directory. *)
  os_createLog : string -> bool;
  (** [cmd.Start] for the argument vector, directory and environment: the
      pid of the child, or a failure. *)
  os_cmdStart : list string -> string -> list string -> option Z;
  (** [os.WriteFile] of the configuration file of a name. *)
  os_writeConfig : string -> bool;
  (** [os.Remove] of the configuration file of a name removes it. *)
  os_removeConfig : string -> bool;
  (** [os.WriteFile] of the PID file of a name. *)
  os_writePid : string -> bool;
  (** [isProcessRunning]: signal 0 reaches the pid. *)
  os_alive : Z -> bool;
  (** [os.FindProcess]. *)
  os_findProcess : Z -> bool;
  (** [proc.Signal(syscall.SIGTERM)]. *)
  os_sigterm : Z -> bool;
  (** [proc.Kill]. *)
  os_kill : Z -> bool;
  (** [time.Now]. *)
  os_now : Z
}.

Record State := mkState {
  (** [configDir/<name>.json], as written by [saveProcess] *)
  configs : gmap string Process;
  (** [pidDir/<name>.pid] *)
  pidFiles : gmap string Z;
  (** the [*Process] values alive in this run of the program *)
  mem : list Process;
  (** the goroutines of [startProcess] that wait for their child *)
  monitors : list nat;
  (** every successful [cmd.Start], oldest first: process name and pid *)
  spawned : list (string * Z);
  (** every signal that was sent, oldest first: pid, and whether it was a kill *)
  signalled : list (Z * bool)
}.

Definition setConfigs (f : gmap string Process -> gmap string Process) (st : State) : State :=
  mkState (f (configs st)) (pidFiles st) (mem st) (monitors st) (spawned st) (signalled st).

Definition setPidFiles (f : gmap string Z -> gmap string Z) (st : State) : State :=
  mkState (configs st) (f (pidFiles st)) (mem st) (monitors st) (spawned st) (signalled st).

Definition setMem (f : list Process -> list Process) (st : State) : State :=
  mkState (configs st) (pidFiles st) (f (mem st)) (monitors st) (spawned st) (signalled st).

Definition setMonitors (f : list nat -> list nat) (st : State) : State :=
  mkState (configs st) (pidFiles st) (mem st) (f (monitors st)) (spawned st) (signalled st).

Definition logSpawn (name : string) (pid : Z) (st : State) : State :=
  mkState (configs st) (pidFiles st) (mem st) (monitors st)
    (spawned st ++ [(name, pid)]) (signalled st).

Definition logSignal (pid : Z) (kill : bool) (st : State) : State :=
  mkState (configs st) (pidFiles st) (mem st) (monitors st) (spawned st)
    (signalled st ++ [(pid, kill)]).

Definition withStatus (s : string) (p : Process) : Process :=
  Process.mk (Process.Name p) (Process.Cmd p) (Process.Cwd p) (Process.Pid p) s
    (Process.Restart p) (Process.MaxRestarts p) (Process.Restarts p) (Process.Env p)
    (Process.StartTime p).

Definition withPid (pid : Z) (p : Process) : Process :=
  Process.mk (Process.Name p) (Process.Cmd p) (Process.Cwd p) pid (Process.Status p)
    (Process.Restart p) (Process.MaxRestarts p) (Process.Restarts p) (Process.Env p)
    (Process.StartTime p).

Definition withRestarts (r : Z) (p : Process) : Process :=
  Process.mk (Process.Name p) (Process.Cmd p) (Process.Cwd p) (Process.Pid p)
    (Process.Status p) (Process.Restart p) (Process.MaxRestarts p) r (Process.Env p)
    (Process.StartTime p).

Definition withStartTime (t : Z) (p : Process) : Process :=
  Process.mk (Process.Name p) (Process.Cmd p) (Process.Cwd p) (Process.Pid p)
    (Process.Status p) (Process.Restart p) (Process.MaxRestarts p) (Process.Restarts p)
    (Process.Env p) t.

(** [saveProcess]. *)
Definition saveProcess (os : OS) (process : Process) (st : State) : option error * State :=
  if os_writeConfig os (Process.Name process)
  then (None, setConfigs (fun m => <[Process.Name process := process]> m) st)
  else (Some ErrWriteConfig, st).

(** [removeProcess]; its error is dropped by the only caller. *)
Definition removeProcess (os : OS) (name : string) (st : State) : State :=
  if os_removeConfig os name then setConfigs (delete name) st else st.

(** [Get]: the stored process, marked "dead" (and saved so, when the file can
    be written) if it says "running" and the pid is gone. *)
Definition Get (os : OS) (name : string) (st : State)
  : (error + Process) * State :=
  match configs st !! name with
  | None => (inl (ErrNotFound name), st)
  | Some process =>
      if String.eqb (Process.Status process) "running" && negb (os_alive os (Process.Pid process))
      then (inr (withStatus "dead" process),
            snd (saveProcess os (withStatus "dead" process) st))
      else (inr process, st)
  end.

(** [startProcess] on the process behind pointer [p]. *)
Definition startProcess (os : OS) (p : nat) (st : State) : option error * State :=
  match mem st !! p with
  | None => (Some ErrInvalidCommand, st)
  | Some process =>
      match os_fields os (Process.Cmd process) with
      | [] => (Some ErrInvalidCommand, st)
      | cmd0 :: args =>
          if negb (os_createLog os (Process.Name process +:+ ".out.log"))
          then (Some (ErrCreateLog (Process.Name process +:+ ".out.log")), st)
          else if negb (os_createLog os (Process.Name process +:+ ".err.log"))
          then (Some (ErrCreateLog (Process.Name process +:+ ".err.log")), st)
          else
            match os_cmdStart os (cmd0 :: args) (Process.Cwd process) (Process.Env process) with
            | None => (Some ErrStart, st)
            | Some pid =>
                let running := withStatus "running" (withPid pid process) in
                let st1 := setMem (fun m => <[p := running]> m)
                             (logSpawn (Process.Name process) pid st) in
                match saveProcess os running st1 with
                | (Some e, st2) => (Some e, st2)
                | (None, st2) =>
                    if negb (os_writePid os (Process.Name process)) then (Some ErrWritePid, st2)
                    else
                      (None,
                       setMonitors (fun g => g ++ [p])
                         (setPidFiles (fun f => <[Process.Name process := pid]> f) st2))
                end
            end
      end
  end.

(** The goroutine of [startProcess], from the moment [cmd.Wait] has
    returned.  The restart note appended to the log and the sleep of one
    second change nothing in the state; the errors of [saveProcess] and of the
    restart are dropped. *)
Definition monitor (os : OS) (p : nat) (st : State) : State :=
  match mem st !! p with
  | None => st
  | Some process =>
      if Process.Restart process && (Process.Restarts process <? Process.MaxRestarts process) then
        let restarting :=
          withStatus "restarting" (withRestarts (Core.wrap64 (Process.Restarts process + 1)) process) in
        let st1 := setMem (fun m => <[p := restarting]> m) st in
        let st2 := snd (saveProcess os restarting st1) in
        snd (startProcess os p st2)
      else
        let stopped := withStatus "stopped" process in
        let st1 := setMem (fun m => <[p := stopped]> m) st in
        let st2 := setPidFiles (delete (Process.Name process)) st1 in
        snd (saveProcess os stopped st2)
  end.

(** [Start]. *)
Definition Start (os : OS) (name cmd cwd : string) (restart : bool) (maxRestarts : Z)
    (env : list string) (st : State) : (error + nat) * State :=
  match Get os name st with
  | (inr _, st0) => (inl (ErrExists name), st0)
  | (inl _, st0) =>
      let process := Process.mk name cmd cwd 0 "starting" restart maxRestarts 0 env (os_now os) in
      let p := length (mem st0) in
      let st1 := setMem (fun m => m ++ [process]) st0 in
      match saveProcess os process st1 with
      | (Some e, st2) => (inl e, st2)
      | (None, st2) =>
          match startProcess os p st2 with
          | (Some e, st3) => (inl e, removeProcess os name st3)
          | (None, st3) => (inr p, st3)
          end
      end
  end.

(** [Stop]. *)
Definition Stop (os : OS) (name : string) (st : State) : option error * State :=
  match Get os name st with
  | (inl e, st0) => (Some e, st0)
  | (inr process, st0) =>
      if String.eqb (Process.Status process) "stopped" then (Some (ErrAlreadyStopped name), st0)
      else if negb (os_findProcess os (Process.Pid process)) then (Some ErrFindProcess, st0)
      else
        let st1 := logSignal (Process.Pid process) false st0 in
        let signalledOk :=
          if os_sigterm os (Process.Pid process) then (true, st1)
          else
            let st1k := logSignal (Process.Pid process) true st1 in
            (os_kill os (Process.Pid process), st1k) in
        if negb (fst signalledOk) then (Some ErrKill, snd signalledOk)
        else
          match saveProcess os (withStatus "stopped" process) (snd signalledOk) with
          | (Some e, st2) => (Some e, st2)
          | (None, st2) => (None, setPidFiles (delete (Process.Name process)) st2)
          end
  end.

(** [Restart]: the process read by [Get] is a new value in memory. *)
Definition Restart (os : OS) (name : string) (st : State) : (error + nat) * State :=
  match Get os name st with
  | (inl e, st0) => (inl e, st0)
  | (inr process, st0) =>
      let stopped :=
        if String.eqb (Process.Status process) "running" then Stop os name st0 else (None, st0) in
      match stopped with
      | (Some e, st1) => (inl e, st1)
      | (None, st1) =>
          let p := length (mem st1) in
          let fresh := withStartTime (os_now os) (withRestarts 0 process) in
          let st2 := setMem (fun m => m ++ [fresh]) st1 in
          match startProcess os p st2 with
          | (Some e, st3) => (inl e, st3)
          | (None, st3) => (inr p, st3)
          end
      end
  end.

(** One exit observed by a pending monitor of [p] (none pending: nothing
    happens). *)
Fixpoint retireMonitor (p : nat) (g : list nat) : list nat :=
  match g with
  | [] => []
  | q :: g' => if decide (p = q) then g' else q :: retireMonitor p g'
  end.

Definition exit (os : OS) (p : nat) (st : State) : State :=
  if decide (p ∈ monitors st)
  then monitor os p (setMonitors (retireMonitor p) st)
  else st.

(** A run of exits of the children of [p], each with its own surroundings. *)
Fixpoint exits (oss : list OS) (p : nat) (st : State) : State :=
  match oss with
  | [] => st
  | os :: oss' => exits oss' p (exit os p st)
  end.

(** Everything [startProcess] needs succeeds for this process. *)
Definition startable (os : OS) (process : Process) : bool :=
  match os_fields os (Process.Cmd process) with
  | [] => false
  | cmd0 :: args =>
      os_createLog os (Process.Name process +:+ ".out.log")
      && os_createLog os (Process.Name process +:+ ".err.log")
      && match os_cmdStart os (cmd0 :: args) (Process.Cwd process) (Process.Env process) with
         | Some _ => true
         | None => false
         end
      && os_writeConfig os (Process.Name process)
      && os_writePid os (Process.Name process)
  end.

(** The bound that each observed exit keeps: the restart counter stays
    between 0 and the cap, and the spawns stay within counter + 1. *)
Definition capped (base : nat) (M : Z) (p : nat) (st : State) : Prop :=
  exists process,
    mem st !! p = Some process
    /\ Process.MaxRestarts process = M
    /\ 0 <= Process.Restarts process <= Z.max 0 M
    /\ (length (spawned st) <= base + Z.to_nat (Process.Restarts process) + 1)%nat.

(** The pid [cmd.Start] hands out for this process. *)
Definition startedPid (os : OS) (process : Process) : option Z :=
  match os_fields os (Process.Cmd process) with
  | [] => None
  | cmd0 :: args => os_cmdStart os (cmd0 :: args) (Process.Cwd process) (Process.Env process)
  end.

End Service.

(** ** Consistency of the manager's state *)

Module Invariants.
Import Config Core.

(** A record of the kind the plain start path creates. *)
Definition plainRecord (proc : ManagedProcess) : Prop :=
  Instances (Cluster (Config proc)) <= 1
  /\ ClusterProcs proc = []
  /\ is_Some (Cmd proc).

(** The state between two requests, as long as no cluster was started: the
    lock is free, every record is plain, every registry entry points to a
    record that carries the entry's name, every pending monitor has its
    record, and a PID file exists only for a registered name. *)
Record consistent (st : State) : Prop := mkConsistent {
  cons_unlocked : mutex st = false;
  cons_heap : forall p proc, heap st !! p = Some proc -> plainRecord proc;
  cons_registry :
    forall name p,
      processes st !! name = Some p ->
      exists proc, heap st !! p = Some proc /\ Name (Config proc) = name;
  cons_monitors : forall p, TMonitor p ∈ tasks st -> is_Some (heap st !! p);
  cons_pidFiles :
    forall name, is_Some (pidFiles st !! name) -> is_Some (processes st !! name)
}.

(** Every event but the start of a cluster. *)
Definition plainEvent (ev : event) : Prop :=
  match ev with
  | EvStart _ procConfig => Instances (Cluster procConfig) <= 1
  | _ => True
  end.

End Invariants.

(** ** Concrete surroundings used by the further examples *)

Module Examples.
Import Config Core.

(** An operating system on which no signal can be delivered. *)
Definition osNoSignal : OS :=
  mkOS (fun _ => true) (fun _ => true) (fun _ => true) (fun _ => true)
    (fun _ => true) (fun _ => Some 100) (fun _ _ => false) (fun _ => true)
    (fun a b => a +:+ "/" +:+ b).

(** The manager after the start of [svc] with restart policy "no". *)
Definition svcStarted : State :=
  mkState (<["svc" := 0%nat]> ∅)
    [mkProc (plainConfig "svc" "no" 0 0) (Some 100) 100 "running" 0
       [("stdout", "/logs/svc.out.log"); ("stderr", "/logs/svc.err.log")] []]
    false [TMonitor 0%nat] (<["svc" := 100]> ∅) [("svc", 100)] [].

(** A start of the tool that finds two PID files, [svc] with the live pid
    100 and [old] with the dead pid 200, and a descriptor file for each. *)
Definition bootExample : CoreExt.Boot :=
  CoreExt.mkBoot true (fun pid => pid =? 100) (fun _ => false)
    (fun path =>
       if String.eqb path "/proc/svc.gem" then Some (plainConfig "svc" "" 0 0)
       else if String.eqb path "/proc/old.gem" then Some (plainConfig "old" "" 0 0)
       else None)
    (fun a b => a +:+ "/" +:+ b).

Definition bootState : State :=
  mkState ∅ [] false [] (<["svc" := 100]> (<["old" := 200]> ∅)) [] [].

(** Surroundings of the script service in which no script file exists. *)
Definition noFileEnv : Scripts.Env :=
  Scripts.mkEnv (fun _ => true) (fun _ => true) (fun _ => true) (fun _ => true)
    (fun _ => true).

(** Surroundings of the process service in which everything succeeds and
    every child gets pid 100. *)
Definition svcOk : Service.OS :=
  Service.mkOS (fun cmd => [cmd]) (fun _ => true) (fun _ _ _ => Some 100)
    (fun _ => true) (fun _ => true) (fun _ => true) (fun _ => true) (fun _ => true)
    (fun _ => true) (fun _ => true) 0.

Definition svcEmpty : Service.State := Service.mkState ∅ ∅ [] [] [] [].

End Examples.

(** * Properties *)

Import Config Core Claims.

(** ** Lock and state bookkeeping *)

Lemma unlock_relock (st : State) :
  mutex st = false -> setMutex false (setMutex true st) = st.
Proof. destruct st; simpl; intros ->; reflexivity. Qed.

Lemma registeredRunning_locked (st : State) (b : bool) (name : string) :
  registeredRunning (setMutex b st) name = registeredRunning st name.
Proof. reflexivity. Qed.

(** The cluster path reports no error, whatever the worker start does. *)
Lemma startClusterProcess_no_error start cfg st e st' :
  startClusterProcess start cfg st <> Returned (Err e) st'.
Proof.
  unfold startClusterProcess.
  destruct (startWorkers _ _ _ _ _ _); congruence.
Qed.

(** A start that returns an error returns the state it was given. *)
Lemma StartProcess_error_state fuel os logsPath cfg st e st' :
  StartProcess fuel os logsPath cfg st = Returned (Err e) st' -> st' = st.
Proof.
  destruct fuel as [|fuel]; simpl; [discriminate|].
  destruct (mutex st) eqn:Hm; [discriminate|].
  rewrite registeredRunning_locked.
  destruct (registeredRunning st (Name cfg)).
  { simpl. intros [= _ <-]. by apply unlock_relock. }
  destruct (1 <? Instances (Cluster cfg)).
  { destruct (startClusterProcess _ cfg (setMutex true st)) as [[w|e'] s| | |] eqn:Hc;
      simpl; try discriminate.
    by apply startClusterProcess_no_error in Hc. }
  destruct (nonEmpty (PreStart (Scripts cfg)) && _).
  { simpl. intros [= _ <-]. by apply unlock_relock. }
  destruct (if nonEmpty (User cfg) then _ else _).
  { simpl. intros [= _ <-]. by apply unlock_relock. }
  destruct (setupLogging os cfg logsPath).
  2:{ simpl. intros [= _ <-]. by apply unlock_relock. }
  destruct (os_cmdStart os cfg).
  2:{ simpl. intros [= _ <-]. by apply unlock_relock. }
  simpl. discriminate.
Qed.

(** ** Failed starts *)



(** ** Cluster starts *)

Lemma startWorkers_blocked start cfg master i n st :
  start (workerConfig cfg i) st = Blocked st ->
  startWorkers start cfg master i (S n) st = Blocked st.
Proof. intros H. simpl. by rewrite H. Qed.

(** Where a cluster start ends: in the wait for the lock, with the master
    record allocated but not registered. *)
Lemma cluster_start_outcome fuel os logsPath cfg st :
  mutex st = false ->
  registeredRunning st (Name cfg) = false ->
  1 < Instances (Cluster cfg) ->
  StartProcess (S (S fuel)) os logsPath cfg st
  = Blocked
      (setHeap (fun h => h ++ [mkProc cfg None 0 "running" 0 [] []])
         (setMutex true st)).
Proof.
  intros Hm Hr Hk.
  cbn [StartProcess]. rewrite Hm, registeredRunning_locked, Hr.
  replace (1 <? Instances (Cluster cfg)) with true by (symmetry; apply Z.ltb_lt; lia).
  unfold startClusterProcess.
  replace (Instances (Cluster cfg) <=? 0) with false by (symmetry; apply Z.leb_gt; lia).
  destruct (Z.to_nat (Instances (Cluster cfg))) as [|n] eqn:Hn; [lia|].
  by rewrite startWorkers_blocked.
Qed.

(** C5.  A start of a cluster descriptor takes the registry lock and, still
    holding it, calls [StartProcess] for worker 0, which waits for the same
    lock: the call never returns, no child is spawned and no record is
    registered. *)
Theorem cluster_start_blocks fuel os logsPath cfg st :
  mutex st = false ->
  registeredRunning st (Name cfg) = false ->
  1 < Instances (Cluster cfg) ->
  exists st',
    StartProcess (S (S fuel)) os logsPath cfg st = Blocked st'
    /\ mutex st' = true
    /\ spawned st' = spawned st
    /\ processes st' = processes st
    /\ tasks st' = tasks st.
Proof.
  intros Hm Hr Hk.
  rewrite (cluster_start_outcome fuel os logsPath cfg st Hm Hr Hk).
  eexists. split; [reflexivity|]. by simpl.
Qed.

Lemma cluster_start_blocks_witness :
  exists st',
    StartProcess 2 (osAllOk 0) "/logs" (plainConfig "web" "always" 0 3) NewProcessManager
    = Blocked st'
    /\ mutex st' = true
    /\ spawned st' = spawned NewProcessManager
    /\ processes st' = processes NewProcessManager
    /\ tasks st' = tasks NewProcessManager.
Proof.
  apply (cluster_start_blocks 0 (osAllOk 0) "/logs" (plainConfig "web" "always" 0 3)
           NewProcessManager).
  - reflexivity.
  - reflexivity.
  - simpl. lia.
Defined.

(** C10.  For a cluster descriptor the start never returns a parent record,
    with any amount of fuel and whatever the operating system answers for the
    workers: the call ends in the wait for the lock before any worker start
    gets to succeed or fail. *)
Theorem cluster_start_returns_no_parent fuel os logsPath cfg st p st' :
  1 < Instances (Cluster cfg) ->
  StartProcess fuel os logsPath cfg st <> Returned (Ok p) st'.
Proof.
  intros Hk.
  destruct fuel as [|[|fuel]].
  - discriminate.
  - cbn [StartProcess]. destruct (mutex st); [discriminate|].
    destruct (registeredRunning _ _); [discriminate|].
    replace (1 <? Instances (Cluster cfg)) with true by (symmetry; apply Z.ltb_lt; lia).
    unfold startClusterProcess.
    replace (Instances (Cluster cfg) <=? 0) with false by (symmetry; apply Z.leb_gt; lia).
    destruct (Z.to_nat (Instances (Cluster cfg))) as [|n] eqn:Hn; [lia|].
    simpl. discriminate.
  - destruct (mutex st) eqn:Hm.
    { cbn [StartProcess]. rewrite Hm. discriminate. }
    destruct (registeredRunning st (Name cfg)) eqn:Hr.
    { cbn [StartProcess]. rewrite Hm, registeredRunning_locked, Hr. discriminate. }
    rewrite (cluster_start_outcome fuel os logsPath cfg st Hm Hr Hk).
    discriminate.
Qed.

Lemma cluster_start_returns_no_parent_witness :
  StartProcess 2 osNoSpawn "/logs" (plainConfig "web" "always" 0 2) NewProcessManager
  <> Returned (Ok 0%nat)
       (setProcesses (fun m => <["web" := 0%nat]> m)
          (setHeap (fun h => h ++ [mkProc (plainConfig "web" "always" 0 2) None 0 "running" 0 [] []])
             NewProcessManager)).
Proof.
  apply (cluster_start_returns_no_parent 2 osNoSpawn "/logs"
           (plainConfig "web" "always" 0 2) NewProcessManager).
  simpl. lia.
Defined.

(** ** Stop against the monitor *)

(** C1.  With restart policy [always], a forced stop that has returned nil
    leaves status "stopped" on the record; the monitor that then sees the
    child exit evaluates the restart policy all the same and spawns the
    command a second time, and the registry holds a new running record. *)
Theorem stop_then_exit_respawns :
  exists st1 st2 st3,
    StartProcess 2 (osAllOk 0) "/logs" (plainConfig "svc" "always" 0 0) NewProcessManager
    = Returned (Ok 0%nat) st1
    /\ StopProcess 2 (osAllOk 0) "svc" true st1 = Returned None st2
    /\ statusAt st2 0%nat = Some "stopped"
    /\ step "/logs" (EvExit (osAllOk 1) 0%nat true) st2 = Returned tt st3
    /\ spawned st3 = [("svc", 100); ("svc", 101)]
    /\ processes st3 !! "svc" = Some 1%nat
    /\ statusAt st3 1%nat = Some "running".
Proof.
  do 3 eexists.
  split; [vm_compute; reflexivity|].
  split; [vm_compute; reflexivity|].
  split; [vm_compute; reflexivity|].
  split; [vm_compute; reflexivity|].
  repeat split; vm_compute; reflexivity.
Qed.

Lemma alter_dangling {A} (f : A -> A) (l : list A) (i : nat) :
  l !! i = None -> alter f i l = l.
Proof.
  intros H. apply list_eq. intros j.
  destruct (decide (i = j)) as [<-|Hne].
  - by rewrite list_lookup_alter_eq, H.
  - by rewrite list_lookup_alter_ne.
Qed.

(** The same with the default policy of a loaded descriptor ([on-failure],
    ten restarts) and a plain SIGTERM: the killed child counts as a failure. *)
Example default_policy_respawns_after_stop :
  exists st1 st2 st3,
    StartProcess 2 (osAllOk 0) "/logs" (plainConfig "svc" "on-failure" 10 0) NewProcessManager
    = Returned (Ok 0%nat) st1
    /\ StopProcess 2 (osAllOk 0) "svc" false st1 = Returned None st2
    /\ step "/logs" (EvExit (osAllOk 1) 0%nat true) st2 = Returned tt st3
    /\ spawned st3 = [("svc", 100); ("svc", 101)].
Proof.
  do 3 eexists.
  split; [vm_compute; reflexivity|].
  split; [vm_compute; reflexivity|].
  split; vm_compute; reflexivity.
Qed.

(** The monitor overwrites the status before it decides: whatever status a
    stop (or anything else) left on the record, the monitor does the same. *)
Lemma monitorProcess_ignores_status fuel os logsPath p waitErr st s :
  monitorProcess fuel os logsPath p waitErr (setStatus p s st)
  = monitorProcess fuel os logsPath p waitErr st.
Proof.
  unfold monitorProcess.
  assert (Hs : setStatus p "stopped" (setStatus p s st) = setStatus p "stopped" st).
  { unfold setStatus, setHeap; simpl. f_equal.
    rewrite list_alter_alter_eq. apply list_alter_ext; [|done]. by intros []. }
  rewrite Hs.
  assert (Hl : heap (setStatus p s st) !! p = withStatus s <$> heap st !! p).
  { unfold setStatus, setHeap; simpl. apply list_lookup_alter_eq. }
  rewrite Hl.
  destruct (heap st !! p) as [proc|] eqn:Hp; simpl; [reflexivity|].
  unfold setStatus, setHeap. rewrite (alter_dangling _ _ _ Hp).
  by destruct st.
Qed.

(** ** The restart cap *)

(** C2.  With [max_restarts = 1] and policy [on-failure], one start followed
    by three failing exits spawns the command four times: every restart
    registers a new record whose counter starts at zero again, so the counter
    the monitor consults is always 0 and the cap of 1 is never reached. *)
Theorem restart_cap_not_enforced :
  exists st,
    run "/logs"
      [ EvStart (osAllOk 0) (plainConfig "job" "on-failure" 1 0);
        EvExit (osAllOk 1) 0%nat true;
        EvExit (osAllOk 2) 1%nat true;
        EvExit (osAllOk 3) 2%nat true ]
      NewProcessManager
    = Returned tt st
    /\ spawned st = [("job", 100); ("job", 101); ("job", 102); ("job", 103)]
    /\ (Z.of_nat (length (spawned st)) > 1 + 1)
    /\ restartsAt st 0%nat = Some 1
    /\ restartsAt st 1%nat = Some 1
    /\ restartsAt st 2%nat = Some 1
    /\ restartsAt st 3%nat = Some 0
    /\ processes st !! "job" = Some 3%nat
    /\ statusAt st 3%nat = Some "running".
Proof.
  eexists. split; [vm_compute; reflexivity|].
  repeat split; vm_compute; reflexivity.
Qed.

(** ** The restart policy *)

Lemma shouldRestart_policy cfg waitErr :
  shouldRestart cfg waitErr = true <-> policyAllows cfg waitErr.
Proof.
  unfold shouldRestart, policyAllows.
  destruct (String.eqb_spec (Restart cfg) "always") as [Ha|Ha].
  { split; auto. }
  destruct (String.eqb_spec (Restart cfg) "on-failure") as [Hf|Hf];
    destruct waitErr; simpl; split; try discriminate; auto;
    intros [?|[? ?]]; congruence.
Qed.

Lemma underCap_capOpen cfg r : underCap cfg r = true <-> capOpen cfg r.
Proof.
  unfold underCap, capOpen.
  rewrite orb_true_iff, Z.eqb_eq, Z.ltb_lt. reflexivity.
Qed.

Lemma restart_decision cfg waitErr r :
  shouldRestart cfg waitErr && underCap cfg r = true
  <-> policyAllows cfg waitErr /\ capOpen cfg r.
Proof. by rewrite andb_true_iff, shouldRestart_policy, underCap_capOpen. Qed.

(** A start on a free lock, of a descriptor that is not a cluster and is not
    registered as running, with nothing failing, spawns exactly one child and
    registers a fresh record whose restart counter is zero. *)
Lemma StartProcess_success fuel os logsPath cfg st :
  mutex st = false ->
  registeredRunning st (Name cfg) = false ->
  Instances (Cluster cfg) <= 1 ->
  startFails os logsPath cfg = false ->
  exists pid logFiles st',
    os_cmdStart os cfg = Some pid
    /\ StartProcess (S fuel) os logsPath cfg st = Returned (Ok (length (heap st))) st'
    /\ spawned st' = spawned st ++ [(Name cfg, pid)]
    /\ heap st' = heap st ++ [mkProc cfg (Some pid) pid "running" 0 logFiles []]
    /\ processes st' = <[Name cfg := length (heap st)]> (processes st)
    /\ mutex st' = false
    /\ signalled st' = signalled st
    /\ TMonitor (length (heap st)) ∈ tasks st'.
Proof.
  intros Hm Hr Hk Hf.
  unfold startFails, preStartFails, userLookupFails, logOpenFails, spawnFails in Hf.
  apply orb_false_elim in Hf as [Hf Hs].
  apply orb_false_elim in Hf as [Hf Hl].
  apply orb_false_elim in Hf as [Hp Hu].
  destruct (os_cmdStart os cfg) as [pid|] eqn:Hc; [|discriminate].
  destruct (setupLogging os cfg logsPath) as [logFiles|] eqn:Hlog; [|discriminate].
  exists pid, logFiles.
  cbn [StartProcess]. rewrite Hm, registeredRunning_locked, Hr.
  replace (1 <? Instances (Cluster cfg)) with false by (symmetry; apply Z.ltb_ge; lia).
  rewrite Hp, Hlog, Hc.
  assert (Hu' : (if nonEmpty (User cfg)
                 then setProcessUser os (User cfg) (Group cfg) else None) = None).
  { destruct (nonEmpty (User cfg)); [|done].
    destruct (setProcessUser os (User cfg) (Group cfg)); [discriminate|done]. }
  rewrite Hu'.
  eexists. split; [reflexivity|]. split; [reflexivity|].
  destruct (os_writePID os (Name cfg)), (nonEmpty (PostStart (Scripts cfg))); simpl;
    repeat split; try reflexivity; set_solver.
Qed.

(** The restart branch of the monitor. *)
Lemma monitor_restart_branch fuel os logsPath p waitErr st proc :
  heap st !! p = Some proc ->
  mutex st = false ->
  shouldRestart (Config proc) waitErr && underCap (Config proc) (Restarts proc) = true ->
  (forall q, processes st !! Name (Config proc) = Some q -> q = p) ->
  Instances (Cluster (Config proc)) <= 1 ->
  startFails os logsPath (Config proc) = false ->
  exists st' pid logFiles,
    monitorProcess (S fuel) os logsPath p waitErr st = Returned tt st'
    /\ spawned st' = spawned st ++ [(Name (Config proc), pid)]
    /\ heap st'
       = alter incRestarts p (alter (withStatus "stopped") p (heap st))
         ++ [mkProc (Config proc) (Some pid) pid "running" 0 logFiles []]
    /\ processes st' = <[Name (Config proc) := length (heap st)]> (processes st)
    /\ mutex st' = false.
Proof.
  intros Hp Hm Hyes Hreg Hk Hf.
  unfold monitorProcess. rewrite Hp, Hyes.
  set (st2 := setHeap (alter incRestarts p) (setStatus p "stopped" st)).
  assert (Hp2 : heap st2 !! p = Some (incRestarts (withStatus "stopped" proc))).
  { unfold st2; simpl. by rewrite !list_lookup_alter_eq, Hp. }
  assert (Hlen : length (heap st2) = length (heap st)).
  { unfold st2; simpl. by rewrite !length_alter. }
  assert (Hr2 : registeredRunning st2 (Name (Config proc)) = false).
  { unfold registeredRunning. change (processes st2) with (processes st).
    destruct (processes st !! Name (Config proc)) as [q|] eqn:Hq; [|done].
    rewrite (Hreg q eq_refl), Hp2. reflexivity. }
  destruct (StartProcess_success fuel os logsPath (Config proc) st2 Hm Hr2 Hk Hf)
    as (pid & logFiles & st' & Hc & Hs & Hsp & Hh & Hpr & Hm' & _ & _).
  rewrite Hs. exists st', pid, logFiles.
  split; [reflexivity|]. split; [exact Hsp|].
  split; [exact Hh|]. split; [by rewrite Hpr, Hlen|exact Hm'].
Qed.

(** C3.  When the monitor sees the child of record [p] exit:
    - the decision to restart is exactly "the policy is [always], or it is
      [on-failure] and the exit was a failure", under the restart cap;
    - when the decision is no (policy [never], a zero exit under [on-failure],
      or the cap reached), nothing is spawned, the restart counter keeps its
      value, the status is "stopped" and the registry entry is removed;
    - when the decision is yes and the start itself does not fail, the command
      is spawned once more and the counter of the record goes up by one. *)
Theorem monitor_restart_policy fuel os logsPath p waitErr st proc :
  heap st !! p = Some proc ->
  mutex st = false ->
  (~ (policyAllows (Config proc) waitErr /\ capOpen (Config proc) (Restarts proc)) ->
     exists st',
       monitorProcess fuel os logsPath p waitErr st = Returned tt st'
       /\ spawned st' = spawned st
       /\ restartsAt st' p = Some (Restarts proc)
       /\ statusAt st' p = Some "stopped"
       /\ processes st' = delete (Name (Config proc)) (processes st))
  /\ (policyAllows (Config proc) waitErr /\ capOpen (Config proc) (Restarts proc) ->
      (forall q, processes st !! Name (Config proc) = Some q -> q = p) ->
      Instances (Cluster (Config proc)) <= 1 ->
      startFails os logsPath (Config proc) = false ->
      exists st' pid,
        monitorProcess (S fuel) os logsPath p waitErr st = Returned tt st'
        /\ spawned st' = spawned st ++ [(Name (Config proc), pid)]
        /\ restartsAt st' p = Some (wrap64 (Restarts proc + 1))
        /\ processes st' !! Name (Config proc) = Some (length (heap st))
        /\ statusAt st' (length (heap st)) = Some "running"
        /\ restartsAt st' (length (heap st)) = Some 0).
Proof.
  intros Hp Hm. split.
  - intros Hno. rewrite <- restart_decision in Hno.
    apply not_true_is_false in Hno.
    unfold monitorProcess. rewrite Hp, Hno. simpl. rewrite Hm.
    eexists. split; [reflexivity|].
    unfold restartsAt, statusAt; simpl.
    rewrite list_lookup_alter_eq, Hp. by simpl.
  - intros Hyes Hreg Hk Hf. rewrite <- restart_decision in Hyes.
    destruct (monitor_restart_branch fuel os logsPath p waitErr st proc
                Hp Hm Hyes Hreg Hk Hf)
      as (st' & pid & logFiles & Hmon & Hsp & Hh & Hpr & _).
    exists st', pid.
    split; [exact Hmon|]. split; [exact Hsp|].
    assert (Hlen : length (alter incRestarts p (alter (withStatus "stopped") p (heap st)))
                   = length (heap st)) by (by rewrite !length_alter).
    unfold restartsAt, statusAt. rewrite Hh, Hpr.
    repeat split.
    + rewrite lookup_app_l by (rewrite Hlen; by apply lookup_lt_Some in Hp).
      by rewrite !list_lookup_alter_eq, Hp.
    + by rewrite lookup_insert_eq.
    + rewrite <- Hlen. by rewrite list_lookup_middle.
    + rewrite <- Hlen. by rewrite list_lookup_middle.
Qed.

Lemma monitor_restart_policy_witness :
  exists st' pid,
    monitorProcess 2 (osAllOk 1) "/logs" 0%nat true
      (mkState (<["job" := 0%nat]> ∅)
         [mkProc (plainConfig "job" "on-failure" 3 0) (Some 100) 100 "running" 0 [] []]
         false [] ∅ [("job", 100)] [])
    = Returned tt st'
    /\ spawned st' = [("job", 100)] ++ [("job", pid)]
    /\ restartsAt st' 0%nat = Some (wrap64 (0 + 1))
    /\ processes st' !! "job" = Some 1%nat
    /\ statusAt st' 1%nat = Some "running"
    /\ restartsAt st' 1%nat = Some 0.
Proof.
  apply (proj2 (monitor_restart_policy 1 (osAllOk 1) "/logs" 0%nat true
                  (mkState (<["job" := 0%nat]> ∅)
                     [mkProc (plainConfig "job" "on-failure" 3 0) (Some 100) 100
                        "running" 0 [] []]
                     false [] ∅ [("job", 100)] [])
                  (mkProc (plainConfig "job" "on-failure" 3 0) (Some 100) 100
                     "running" 0 [] [])
                  eq_refl eq_refl)).
  - split; [right; split; reflexivity | right; simpl; lia].
  - intros q. simpl. rewrite lookup_insert_eq. by intros [= <-].
  - simpl. lia.
  - reflexivity.
Defined.

(** ** Log tail *)

Lemma readLastLines_ok files path n f :
  files !! path = Some f ->
  scanFailed f = false ->
  exists ls,
    readLastLines files path n = (ls, None)
    /\ (n <= 0 \/ Z.of_nat (length (scanned f)) <= n -> ls = scanned f)
    /\ (0 < n < Z.of_nat (length (scanned f)) ->
        Z.of_nat (length ls) = n /\ exists pre, scanned f = pre ++ ls).
Proof.
  intros Hf Hs. unfold readLastLines. rewrite Hf, Hs.
  destruct (Z.leb_spec n 0) as [Hn|Hn].
  { eexists. split; [reflexivity|]. split; [done|lia]. }
  destruct (Z.leb_spec (Z.of_nat (length (scanned f))) n) as [Hl|Hl].
  { eexists. split; [reflexivity|]. split; [done|lia]. }
  eexists. split; [reflexivity|]. split; [lia|].
  intros _. split.
  - rewrite length_drop. lia.
  - exists (take (length (scanned f) - Z.to_nat n) (scanned f)).
    by rewrite take_drop.
Qed.

Lemma logPath_streams os logsPath cfg stream :
  is_Some (logPath os logsPath cfg stream) <-> stream = "stdout" \/ stream = "stderr".
Proof.
  unfold logPath.
  destruct (String.eqb_spec stream "stdout") as [?|H1].
  { split; [by left|by eexists]. }
  destruct (String.eqb_spec stream "stderr") as [?|H2].
  { split; [by right|by eexists]. }
  split; [by intros [? [=]]|]. by intros [?|?].
Qed.



(** The tail on a concrete file. *)
Example GetLogs_last_two :
  GetLogs (osAllOk 0) "/logs" svcLogs "svc" "stdout" 2 svcState
  = Returned (["b"; "c"], None) svcState.
Proof. vm_compute. reflexivity. Qed.

(** The file [GetLogs] reads is the file [setupLogging] opened for the child
    whenever the configured path is empty or absolute.  (A relative configured
    path is joined to the logs directory by [setupLogging] only.) *)
Lemma logPath_is_opened_path os logsPath cfg :
  (Stdout (Log cfg) = "" \/ IsAbs (Stdout (Log cfg)) = true ->
   logPath os logsPath cfg "stdout"
   = Some (openedLogPath os logsPath (Name cfg) (Stdout (Log cfg)) ".out.log"))
  /\ (Stderr (Log cfg) = "" \/ IsAbs (Stderr (Log cfg)) = true ->
      logPath os logsPath cfg "stderr"
      = Some (openedLogPath os logsPath (Name cfg) (Stderr (Log cfg)) ".err.log")).
Proof.
  unfold logPath, openedLogPath, nonEmpty; simpl. split.
  - intros [->|Ha]; [reflexivity|].
    rewrite Ha. simpl. by destruct (String.eqb _ "").
  - intros [->|Ha]; [reflexivity|].
    rewrite Ha. simpl. by destruct (String.eqb _ "").
Qed.

(** ** The top-level process list *)

Lemma lastChar_cons c s : s <> "" -> lastChar (String c s) = lastChar s.
Proof. by destruct s. Qed.

Lemma lastChar_app s t : t <> "" -> lastChar (s +:+ t) = lastChar t.
Proof.
  intros Ht. induction s as [|c s IH]; [done|].
  change (String c s +:+ t) with (String c (s +:+ t)).
  rewrite lastChar_cons; [exact IH|].
  destruct s; [exact Ht|discriminate].
Qed.

Lemma substring_whole s : substring 0 (String.length s) s = s.
Proof. induction s as [|c s IH]; simpl; [done|by rewrite IH]. Qed.

Lemma lastChar_suffix s n :
  (n < String.length s)%nat ->
  lastChar (substring n (String.length s - n) s) = lastChar s.
Proof.
  revert n. induction s as [|c s IH]; intros n Hn; simpl in Hn; [lia|].
  destruct n as [|n].
  - by rewrite Nat.sub_0_r, substring_whole.
  - simpl. rewrite IH by lia.
    symmetry. apply lastChar_cons. destruct s; [simpl in Hn; lia|discriminate].
Qed.

(** A name the filter takes for a worker ends in the hyphen of "-worker-". *)
Lemma isClusterWorker_last name :
  Api.isClusterWorker name = true -> lastChar name = Some "-"%char.
Proof.
  unfold Api.isClusterWorker. intros H.
  apply andb_true_iff in H as [Hlen Heq].
  apply Nat.ltb_lt in Hlen. apply String.eqb_eq in Heq.
  rewrite <- (lastChar_suffix name (String.length name - 8)) by lia.
  replace (String.length name - (String.length name - 8))%nat with 8%nat by lia.
  by rewrite Heq.
Qed.

Lemma string_of_uint_last d :
  d <> Decimal.Nil ->
  exists c, lastChar (NilEmpty.string_of_uint d) = Some c /\ isDigit c = true.
Proof.
  induction d as [|d IH|d IH|d IH|d IH|d IH|d IH|d IH|d IH|d IH|d IH]; intros Hd;
    [done|..];
    (assert (Hnil : d = Decimal.Nil \/ d <> Decimal.Nil)
       by (destruct d; [by left|right..]; discriminate);
     destruct Hnil as [->|Hn];
     [ eexists; split; [reflexivity|reflexivity]
     | destruct (IH Hn) as (c & Hc & Hdig); exists c; split; [|exact Hdig];
       simpl NilEmpty.string_of_uint; rewrite lastChar_cons; [exact Hc|];
       intros He; rewrite He in Hc; discriminate ]).
Qed.

Lemma itoa_last i : exists c, lastChar (itoa i) = Some c /\ isDigit c = true.
Proof.
  unfold itoa. apply string_of_uint_last.
  rewrite <- (DecimalNat.Unsigned.of_to i) at 1.
  rewrite DecimalNat.Unsigned.to_of.
  apply DecimalFacts.unorm_nonnil.
Qed.

(** No name that the cluster start gives a worker is taken for a worker by
    the filter: the name ends in the digits of the index, the filter asks for
    a name that ends in "-worker-". *)
Lemma worker_name_not_recognised cfg i :
  Api.isClusterWorker (Name (workerConfig cfg i)) = false.
Proof.
  apply not_true_is_false. intros H.
  apply isClusterWorker_last in H.
  destruct (itoa_last i) as (c & Hc & Hd).
  assert (Hne : itoa i <> "") by (intros He; rewrite He in Hc; discriminate).
  simpl in H.
  rewrite lastChar_app in H.
  2:{ change ("-worker-" +:+ itoa i) with (String "-" ("worker-" +:+ itoa i)). discriminate. }
  rewrite lastChar_app in H by exact Hne.
  rewrite Hc in H. injection H as ->. discriminate.
Qed.

(** C7.  The filter behind the process list leaves every cluster worker in the
    list: no name of the form the cluster start produces is recognised; a
    process started under the name "web-worker-0" is listed, and on the
    two-worker cluster the answer holds both worker records; a process whose
    name merely ends in "-worker-" is dropped instead. *)
Theorem worker_records_are_listed :
  (forall cfg i, Api.isClusterWorker (Name (workerConfig cfg i)) = false)
  /\ (exists st,
        StartProcess 2 (osAllOk 0) "/logs" (plainConfig "web-worker-0" "" 0 0) NewProcessManager
        = Returned (Ok 0%nat) st
        /\ Api.listProcesses st = Returned [0%nat] st)
  /\ (exists l,
        Api.listProcesses clusterState = Returned l clusterState
        /\ 1%nat ∈ l /\ 2%nat ∈ l)
  /\ (exists st,
        StartProcess 2 (osAllOk 0) "/logs" (plainConfig "nightly-worker-" "" 0 0) NewProcessManager
        = Returned (Ok 0%nat) st
        /\ Api.listProcesses st = Returned [] st).
Proof.
  split; [exact worker_name_not_recognised|].
  split; [eexists; split; vm_compute; reflexivity|].
  split; [|eexists; split; vm_compute; reflexivity].
  eexists. split; [vm_compute; reflexivity|].
  split; apply list_elem_of_In; simpl; tauto.
Qed.

(** ** Script registration *)

(** Whatever passes the existence checks and can be written is stored before
    the cron expression is looked at; a rejected expression makes [Add] return
    the scheduling error with the record already in place. *)
Lemma Add_rejected_schedule env name file schedule process st :
  Scripts.Get name st = None ->
  Scripts.notExist env file = false ->
  process = "" \/ Scripts.processKnown env process = true ->
  Scripts.writeOk env name = true ->
  schedule <> "" ->
  Scripts.cronAccepts env schedule = false ->
  exists st',
    Scripts.Add env name file schedule process st = (Some Scripts.ErrSchedule, st')
    /\ Scripts.Get name st' = Some (Scripts.mkScript name file schedule process)
    /\ Scripts.scheduled st' = Scripts.scheduled st.
Proof.
  intros Hg Hf Hp Hw Hs Hc.
  unfold Scripts.Add. rewrite Hg, Hf.
  assert (Hp' : negb (String.eqb process "") && negb (Scripts.processKnown env process) = false).
  { destruct Hp as [-> | ->]; [done|]. by rewrite andb_false_r. }
  rewrite Hp'.
  unfold Scripts.saveScript; simpl. rewrite Hw.
  apply String.eqb_neq in Hs. rewrite Hs. simpl.
  unfold Scripts.scheduleScript; simpl. rewrite Hs, Hc.
  eexists. split; [reflexivity|]. split; [|reflexivity].
  unfold Scripts.Get; simpl. apply lookup_insert_eq.
Qed.

(** C9.  Adding the script "backup" with an expression the cron parser
    rejects returns the scheduling error, and the record for "backup" is in
    the store afterwards; a second [Add] of the same name is then refused as
    already existing. *)
Theorem rejected_cron_is_persisted :
  exists st',
    Scripts.Add scriptEnv "backup" "/opt/backup.sh" "every day" "" (Scripts.mkState ∅ [])
    = (Some Scripts.ErrSchedule, st')
    /\ Scripts.Get "backup" st'
       = Some (Scripts.mkScript "backup" "/opt/backup.sh" "every day" "")
    /\ Scripts.scheduled st' = []
    /\ fst (Scripts.Add scriptEnv "backup" "/opt/backup.sh" "0 */5 * * * *" "" st')
       = Some (Scripts.ErrExists "backup").
Proof.
  eexists. split; [vm_compute; reflexivity|].
  repeat split; vm_compute; reflexivity.
Qed.

(** ** Stopping a cluster *)


Lemma eraseStatus_withStatus s m : eraseStatus (withStatus s m) = eraseStatus m.
Proof. reflexivity. Qed.

Lemma erase_setStatus p s (h : list ManagedProcess) :
  eraseStatus <$> alter (withStatus s) p h = eraseStatus <$> h.
Proof.
  rewrite (list_fmap_alter eraseStatus (withStatus s) id).
  - by apply list_alter_id.
  - apply Forall_forall. by intros.
Qed.

Lemma sameButStatus_refl st : sameButStatus st st.
Proof. by repeat split. Qed.

Lemma sameButStatus_trans st1 st2 st3 :
  sameButStatus st1 st2 -> sameButStatus st2 st3 -> sameButStatus st1 st3.
Proof.
  intros (Hp1 & Hm1 & Hh1 & Ht1) (Hp2 & Hm2 & Hh2 & Ht2).
  repeat split; try congruence. auto.
Qed.

Lemma sameButStatus_lookup st st1 q m :
  sameButStatus st st1 ->
  heap st !! q = Some m ->
  exists m1,
    heap st1 !! q = Some m1
    /\ Config m1 = Config m /\ Cmd m1 = Cmd m /\ ClusterProcs m1 = ClusterProcs m.
Proof.
  intros (_ & _ & Hh & _) Hq.
  apply (list_lookup_fmap_Some_2 eraseStatus) in Hq.
  rewrite <- Hh in Hq.
  apply list_lookup_fmap_Some_1 in Hq as (m1 & He & Hq1).
  exists m1. split; [exact Hq1|].
  destruct m, m1. by injection He as -> -> -> -> -> ->.
Qed.

Lemma workerOk_preserved st st1 w :
  sameButStatus st st1 -> workerOk st w -> workerOk st1 w.
Proof.
  intros Hs (wp & pid & Hw & Hreg & Hc & Hcmd).
  destruct (sameButStatus_lookup st st1 w wp Hs Hw) as (m1 & Hq & HC & HCmd & HCl).
  exists m1, pid. destruct Hs as (Hp & _).
  rewrite HC, Hp, HCl, HCmd. auto.
Qed.

Lemma workerPids_cons st w ws :
  workerPids st (w :: ws)
  = match heap st !! w ≫= Cmd with
    | Some pid => pid :: workerPids st ws
    | None => workerPids st ws
    end.
Proof. reflexivity. Qed.

Lemma workerPids_preserved st st1 ws :
  sameButStatus st st1 -> Forall (workerOk st) ws -> workerPids st1 ws = workerPids st ws.
Proof.
  intros Hs. induction 1 as [|w ws (wp & pid & Hw & _ & _ & Hcmd) _ IH]; [done|].
  destruct (sameButStatus_lookup st st1 w wp Hs Hw) as (m1 & Hq & _ & HCmd & _).
  rewrite !workerPids_cons, Hw, Hq. simpl. by rewrite HCmd, Hcmd, IH.
Qed.

(** The stop of one worker: the request is logged, the registry keeps every
    entry, and when the signal was delivered a waiter is queued. *)
Lemma StopProcess_worker fuel os force st w wp pid :
  mutex st = false ->
  heap st !! w = Some wp ->
  processes st !! Name (Config wp) = Some w ->
  ClusterProcs wp = [] ->
  Cmd wp = Some pid ->
  exists r st1,
    StopProcess (S fuel) os (Name (Config wp)) force st = Returned r st1
    /\ sameButStatus st st1
    /\ signalled st1 = signalled st ++ [(pid, force)]
    /\ (os_signal os pid force = true ->
        r = None /\ TStopWait w (Name (Config wp)) ∈ tasks st1
        /\ statusAt st1 w = Some "stopped").
Proof.
  intros Hm Hw Hreg Hc Hcmd.
  cbn [StopProcess]. rewrite Hm, Hreg, Hw, Hc, Hcmd. simpl.
  destruct (os_signal os pid force) eqn:Hsig; simpl.
  - eexists _, _. split; [reflexivity|].
    split.
    { repeat split; simpl; [apply erase_setStatus|set_solver]. }
    split; [reflexivity|].
    intros _. split; [done|]. split; [simpl; set_solver|].
    unfold statusAt; simpl. by rewrite list_lookup_alter_eq, Hw.
  - eexists _, _. split; [reflexivity|].
    split; [by repeat split|].
    split; [reflexivity|]. discriminate.
Qed.

Lemma stopWorkers_ok fuel os force ws st :
  mutex st = false ->
  Forall (workerOk st) ws ->
  exists st1,
    stopWorkers (StopProcess (S fuel) os) ws force st = Returned tt st1
    /\ sameButStatus st st1
    /\ signalled st1 = signalled st ++ ((fun pid => (pid, force)) <$> workerPids st ws).
Proof.
  revert st. induction ws as [|w ws IH]; intros st Hm Hall.
  { exists st. simpl. split; [done|]. split; [apply sameButStatus_refl|].
    by rewrite app_nil_r. }
  pose proof (Forall_inv Hall) as (wp & pid & Hw & Hreg & Hc & Hcmd).
  pose proof (Forall_inv_tail Hall) as Hrest.
  destruct (StopProcess_worker fuel os force st w wp pid Hm Hw Hreg Hc Hcmd)
    as (r & st1 & Hstop & Hsame & Hsig & _).
  assert (Hm1 : mutex st1 = false) by (destruct Hsame as (_ & -> & _); exact Hm).
  assert (Hrest1 : Forall (workerOk st1) ws).
  { eapply Forall_impl; [exact Hrest|]. intros x. by apply workerOk_preserved. }
  destruct (IH st1 Hm1 Hrest1) as (st2 & Hloop & Hsame2 & Hsig2).
  exists st2. split.
  { cbn [stopWorkers]. by rewrite Hw, Hstop. }
  split; [by eapply sameButStatus_trans|].
  rewrite Hsig2, Hsig, (workerPids_preserved st st1 ws Hsame Hrest).
  rewrite workerPids_cons, Hw. simpl. rewrite Hcmd. simpl.
  by rewrite <- app_assoc.
Qed.

Lemma workerPids_aligned st ws :
  Forall (workerOk st) ws ->
  Forall2 (fun w pid => heap st !! w ≫= Cmd = Some pid) ws (workerPids st ws).
Proof.
  induction 1 as [|w ws (wp & pid & Hw & _ & _ & Hcmd) _ IH]; [constructor|].
  rewrite workerPids_cons, Hw. simpl. rewrite Hcmd.
  constructor; [|exact IH]. rewrite Hw. exact Hcmd.
Qed.

(** The waiter of a stopped child removes the child's entry once it runs. *)
Lemma stopWaiter_removes name st :
  mutex st = false ->
  exists st',
    stopWaiter name st = Returned tt st'
    /\ processes st' = delete name (processes st).
Proof. intros Hm. unfold stopWaiter. simpl. rewrite Hm. by eexists. Qed.



(** ** The restart counter is lost on every restart *)

Lemma StartProcess_freshlyStarted fuel os logsPath cfg st :
  mutex st = false ->
  registeredRunning st (Name cfg) = false ->
  Instances (Cluster cfg) <= 1 ->
  startFails os logsPath cfg = false ->
  exists p st',
    StartProcess (S fuel) os logsPath cfg st = Returned (Ok p) st'
    /\ freshlyStarted cfg st'
    /\ length (spawned st') = S (length (spawned st)).
Proof.
  intros Hm Hr Hk Hf.
  destruct (StartProcess_success fuel os logsPath cfg st Hm Hr Hk Hf)
    as (pid & logFiles & st' & _ & Hs & Hsp & Hh & Hpr & Hm' & _ & _).
  exists (length (heap st)), st'. split; [exact Hs|]. split.
  - split; [exact Hm'|]. eexists _, _. rewrite Hpr, Hh.
    split; [by rewrite lookup_insert_eq|].
    split; [by rewrite list_lookup_middle|]. done.
  - rewrite Hsp, length_app. simpl. lia.
Qed.

(** After any number of failing exits the command has been spawned once more
    per exit, whatever positive [max_restarts] the descriptor carries: every
    restart leaves a record whose counter is zero in the registry. *)
Lemma restarts_unbounded os logsPath cfg n st :
  Restart cfg = "always" \/ Restart cfg = "on-failure" ->
  0 <= MaxRestarts cfg ->
  Instances (Cluster cfg) <= 1 ->
  startFails os logsPath cfg = false ->
  freshlyStarted cfg st ->
  exists st',
    failingExits os logsPath (Name cfg) n st = Returned tt st'
    /\ freshlyStarted cfg st'
    /\ length (spawned st') = (length (spawned st) + n)%nat.
Proof.
  intros Hpol Hmax Hk Hf. revert st.
  induction n as [|n IH]; intros st Hfresh.
  { exists st. simpl. split; [done|]. split; [done|lia]. }
  pose proof Hfresh as (Hm & p & proc & Hreg & Hp & Hcfg & Hzero).
  assert (Hyes : shouldRestart (Config proc) true
                 && underCap (Config proc) (Restarts proc) = true).
  { apply restart_decision. rewrite Hcfg, Hzero. split.
    - destruct Hpol; [by left|by right].
    - unfold capOpen. lia. }
  assert (Hq : forall q, processes st !! Name (Config proc) = Some q -> q = p).
  { intros q. rewrite Hcfg, Hreg. by intros [= <-]. }
  rewrite <- Hcfg in Hk, Hf.
  destruct (monitor_restart_branch 1 os logsPath p true st proc Hp Hm Hyes Hq Hk Hf)
    as (st1 & pid & logFiles & Hmon & Hsp & Hh & Hpr & Hm1).
  rewrite Hcfg in Hk, Hf, Hsp, Hh, Hpr.
  assert (Hfresh1 : freshlyStarted cfg st1).
  { split; [exact Hm1|].
    exists (length (heap st)), (mkProc cfg (Some pid) pid "running" 0 logFiles []).
    rewrite Hpr, Hh. split; [by rewrite lookup_insert_eq|].
    split; [|done].
    rewrite <- (length_alter (withStatus "stopped") (heap st) p).
    rewrite <- (length_alter incRestarts (alter (withStatus "stopped") p (heap st)) p).
    by rewrite list_lookup_middle. }
  destruct (IH st1 Hfresh1) as (st' & Hrun & Hfresh' & Hlen).
  exists st'. split.
  { cbn [failingExits]. by rewrite Hreg, Hmon. }
  split; [exact Hfresh'|].
  rewrite Hlen, Hsp, length_app. simpl. lia.
Qed.

(** ** What the cluster loop does when the worker starts return

    These lemmas take the worker start as a parameter; they describe the loop
    of [startClusterProcess] on its own, apart from the lock that
    [StartProcess] holds around it. *)

Lemma startWorkers_returns start cfg master i n st :
  (forall c s, exists r s', start c s = Returned r s') ->
  exists st', startWorkers start cfg master i n st = Returned tt st'.
Proof.
  intros Hstart. revert i st.
  induction n as [|n IH]; intros i st; [by eexists|].
  simpl. destruct (Hstart (workerConfig cfg i) st) as ([w|e] & s' & ->); apply IH.
Qed.

(** With a worker start that always returns, the cluster start returns the
    master record and a nil error, and registers the master. *)
Lemma startClusterProcess_returns_parent start cfg st :
  (forall c s, exists r s', start c s = Returned r s') ->
  exists st',
    startClusterProcess start cfg st = Returned (Ok (length (heap st))) st'
    /\ processes st' !! Name cfg = Some (length (heap st)).
Proof.
  intros Hstart. unfold startClusterProcess.
  destruct (startWorkers_returns start cfg (length (heap st)) 0
              (Z.to_nat (if Instances (Cluster cfg) <=? 0 then 1 else Instances (Cluster cfg)))
              (setHeap (fun h => h ++ [mkProc cfg None 0 "running" 0 [] []]) st) Hstart)
    as (st1 & ->).
  eexists. split; [reflexivity|]. simpl. apply lookup_insert_eq.
Qed.

Lemma startWorkers_all_fail start cfg master i n st :
  (forall c s, exists e, start c s = Returned (Err e) s) ->
  startWorkers start cfg master i n st = Returned tt st.
Proof.
  intros Hstart. revert i.
  induction n as [|n IH]; intros i; [done|].
  simpl. destruct (Hstart (workerConfig cfg i) st) as (e & ->). apply IH.
Qed.

(** With every worker start failing, the master is registered all the same,
    running, without a pid and without any worker. *)
Lemma startClusterProcess_all_fail start cfg st :
  (forall c s, exists e, start c s = Returned (Err e) s) ->
  startClusterProcess start cfg st
  = Returned (Ok (length (heap st)))
      (setProcesses (fun m => <[Name cfg := length (heap st)]> m)
         (setHeap (fun h => h ++ [mkProc cfg None 0 "running" 0 [] []]) st)).
Proof.
  intros Hstart. unfold startClusterProcess.
  by rewrite startWorkers_all_fail.
Qed.

(** * Further properties of the embedded code *)

Import ConfigLoad CoreExt ApiExt ScriptsExt Invariants Examples.

(** ** The two ways a plain start ends *)

Lemma StartProcess_plain fuel os logsPath cfg st :
  mutex st = false ->
  Instances (Cluster cfg) <= 1 ->
  (exists e, StartProcess (S fuel) os logsPath cfg st = Returned (Err e) st)
  \/ (exists pid logFiles st',
        StartProcess (S fuel) os logsPath cfg st = Returned (Ok (length (heap st))) st'
        /\ os_cmdStart os cfg = Some pid
        /\ registeredRunning st (Name cfg) = false
        /\ heap st' = heap st ++ [mkProc cfg (Some pid) pid "running" 0 logFiles []]
        /\ processes st' = <[Name cfg := length (heap st)]> (processes st)
        /\ mutex st' = false
        /\ spawned st' = spawned st ++ [(Name cfg, pid)]
        /\ signalled st' = signalled st
        /\ pidFiles st'
           = (if os_writePID os (Name cfg)
              then <[Name cfg := pid]> (pidFiles st) else pidFiles st)
        /\ tasks st'
           = (tasks st
              ++ (if nonEmpty (PostStart (Scripts cfg))
                  then [TPostStart (PostStart (Scripts cfg))] else []))
             ++ [TMonitor (length (heap st))]).
Proof.
  intros Hm Hk.
  cbn [StartProcess]. rewrite Hm, registeredRunning_locked.
  destruct (registeredRunning st (Name cfg)) eqn:Hr.
  { left. eexists. simpl. by rewrite unlock_relock. }
  replace (1 <? Instances (Cluster cfg)) with false by (symmetry; apply Z.ltb_ge; lia).
  destruct (nonEmpty (PreStart (Scripts cfg)) && _).
  { left. eexists. simpl. by rewrite unlock_relock. }
  destruct (if nonEmpty (User cfg) then _ else _).
  { left. eexists. simpl. by rewrite unlock_relock. }
  destruct (setupLogging os cfg logsPath) as [logFiles|].
  2:{ left. eexists. simpl. by rewrite unlock_relock. }
  destruct (os_cmdStart os cfg) as [pid|].
  2:{ left. eexists. simpl. by rewrite unlock_relock. }
  right. exists pid, logFiles. eexists. split; [reflexivity|].
  split; [reflexivity|]. split; [reflexivity|].
  destruct (os_writePID os (Name cfg)), (nonEmpty (PostStart (Scripts cfg))); simpl;
    repeat split; by rewrite ?app_nil_r.
Qed.

(** ** Consistency is kept by every request and every goroutine *)

Lemma consistent_new : consistent NewProcessManager.
Proof.
  split; simpl; try done.
  - intros p H. by apply elem_of_nil in H.
  - intros name [x H]. by rewrite lookup_empty in H.
Qed.

Lemma plainRecord_withStatus s proc : plainRecord proc -> plainRecord (withStatus s proc).
Proof. by intros (? & ? & ?). Qed.

Lemma plainRecord_incRestarts proc : plainRecord proc -> plainRecord (incRestarts proc).
Proof. by intros (? & ? & ?). Qed.

(** Changing a record in place without touching its descriptor, command or
    worker list keeps the state consistent. *)
Lemma consistent_alter (f : ManagedProcess -> ManagedProcess) p st :
  (forall proc, Config (f proc) = Config proc) ->
  (forall proc, plainRecord proc -> plainRecord (f proc)) ->
  consistent st -> consistent (setHeap (alter f p) st).
Proof.
  intros Hcfg Hplain [Hm Hh Hr Ht Hpf]. split; simpl; try done.
  - intros q proc Hq.
    destruct (decide (p = q)) as [<-|Hne].
    + rewrite list_lookup_alter_eq in Hq.
      destruct (heap st !! p) as [proc0|] eqn:Hp; [|done].
      injection Hq as <-. eauto.
    + rewrite list_lookup_alter_ne in Hq by done. eauto.
  - intros name q Hq. destruct (Hr name q Hq) as (proc & Hproc & Hname).
    destruct (decide (p = q)) as [<-|Hne].
    + exists (f proc). rewrite list_lookup_alter_eq, Hproc. split; [done|].
      by rewrite Hcfg.
    + exists proc. by rewrite list_lookup_alter_ne.
  - intros q Hq. destruct (Ht q Hq) as [proc Hproc].
    destruct (decide (p = q)) as [<-|Hne].
    + rewrite list_lookup_alter_eq, Hproc. by eexists.
    + rewrite list_lookup_alter_ne by done. by eexists.
Qed.

Lemma consistent_setStatus p s st : consistent st -> consistent (setStatus p s st).
Proof.
  apply consistent_alter; [done|]. apply plainRecord_withStatus.
Qed.

Lemma consistent_retire t st : consistent st -> consistent (retireTask t st).
Proof.
  intros [Hm Hh Hr Ht Hpf]. split; simpl; try done.
  intros p Hp. apply Ht. revert Hp.
  generalize (tasks st). intros ts.
  induction ts as [|t' ts IH]; simpl; [done|].
  destruct (decide (t = t')) as [_|_].
  - apply list_elem_of_further.
  - rewrite !elem_of_cons. intros [H|H]; [by left|right; by apply IH].
Qed.

Lemma consistent_addTask_other t st :
  (forall p, t <> TMonitor p) -> consistent st -> consistent (addTask t st).
Proof.
  intros Hne [Hm Hh Hr Ht Hpf]. split; simpl; try done.
  intros p Hp. apply Ht. apply elem_of_app in Hp as [Hp|Hp]; [done|].
  apply list_elem_of_singleton in Hp. by destruct (Hne p).
Qed.

Lemma consistent_logSignal pid force st : consistent st -> consistent (logSignal pid force st).
Proof. by intros []. Qed.

(** Removing a name from the registry and from the PID files together. *)
Lemma consistent_forget name st :
  consistent st ->
  consistent (setProcesses (delete name) (setPidFiles (delete name) st)).
Proof.
  intros [Hm Hh Hr Ht Hpf]. split; simpl; try done.
  - intros n p Hn. apply lookup_delete_Some in Hn as [_ Hn]. eauto.
  - intros n [x Hn]. apply lookup_delete_Some in Hn as [Hne Hn].
    destruct (Hpf n (ex_intro _ x Hn)) as [p Hp].
    exists p. by rewrite lookup_delete_ne.
Qed.

Lemma consistent_StartProcess fuel os logsPath cfg st r st' :
  consistent st ->
  Instances (Cluster cfg) <= 1 ->
  StartProcess (S fuel) os logsPath cfg st = Returned r st' ->
  consistent st'.
Proof.
  intros Hc Hk Hs. pose proof Hc as [Hm Hh Hr Ht Hpf].
  destruct (StartProcess_plain fuel os logsPath cfg st Hm Hk)
    as [(e & He)|(pid & logFiles & st1 & H1 & Hcmd & _ & Hheap & Hpr & Hm1 & _ & _ & Hpid & Htasks)];
    rewrite Hs in *.
  { by injection He as _ ->. }
  injection H1 as _ <-.
  split; try done.
  - intros p proc. rewrite Hheap. intros Hp.
    apply lookup_app_Some in Hp as [Hp|[_ Hp]]; [eauto|].
    destruct (p - length (heap st))%nat; [|done].
    injection Hp as <-. repeat split; simpl; [lia|by eexists].
  - intros name p. rewrite Hpr, Hheap. intros Hp.
    apply lookup_insert_Some in Hp as [[<- <-]|[Hne Hp]].
    + eexists. by rewrite list_lookup_middle.
    + destruct (Hr name p Hp) as (proc & Hproc & Hname).
      exists proc. split; [|done]. by apply lookup_app_l_Some.
  - intros p. rewrite Htasks, Hheap. intros Hp.
    apply elem_of_app in Hp as [Hp|Hp].
    + apply elem_of_app in Hp as [Hp|Hp].
      * destruct (Ht p Hp) as [proc Hproc]. exists proc. by apply lookup_app_l_Some.
      * destruct (nonEmpty _); [|by apply elem_of_nil in Hp].
        by apply list_elem_of_singleton in Hp.
    + apply list_elem_of_singleton in Hp. injection Hp as ->.
      eexists. by rewrite list_lookup_middle.
  - intros name. rewrite Hpid, Hpr. intros Hn.
    destruct (decide (Name cfg = name)) as [<-|Hne].
    { rewrite lookup_insert_eq. by eexists. }
    rewrite lookup_insert_ne by done. apply Hpf.
    destruct (os_writePID os (Name cfg)); [|done].
    by rewrite lookup_insert_ne in Hn.
Qed.

Lemma consistent_monitorProcess fuel os logsPath p waitErr st :
  consistent st ->
  is_Some (heap st !! p) ->
  exists st',
    monitorProcess (S fuel) os logsPath p waitErr st = Returned tt st'
    /\ consistent st'.
Proof.
  intros Hc [proc Hp]. unfold monitorProcess. rewrite Hp.
  assert (Hc1 : consistent (setStatus p "stopped" st)) by (by apply consistent_setStatus).
  destruct (shouldRestart (Config proc) waitErr && underCap (Config proc) (Restarts proc)).
  - set (st2 := setHeap (alter incRestarts p) (setStatus p "stopped" st)).
    assert (Hc2 : consistent st2).
    { apply consistent_alter; [done|apply plainRecord_incRestarts|exact Hc1]. }
    assert (Hk : Instances (Cluster (Config proc)) <= 1).
    { by destruct (cons_heap st Hc p proc Hp). }
    destruct (StartProcess_plain fuel os logsPath (Config proc) st2 (cons_unlocked _ Hc2) Hk)
      as [(e & He)|(pid & logFiles & st3 & H3 & _)].
    + rewrite He. eauto.
    + rewrite H3. eexists. split; [done|].
      by eapply consistent_StartProcess.
  - change (mutex (setPidFiles (delete (Name (Config proc))) (setStatus p "stopped" st)))
      with (mutex st).
    rewrite (cons_unlocked _ Hc).
    eexists. split; [done|]. by apply consistent_forget.
Qed.

Lemma consistent_StopProcess fuel os name force st :
  consistent st ->
  exists r st',
    StopProcess (S fuel) os name force st = Returned r st'
    /\ consistent st'.
Proof.
  intros Hc. cbn [StopProcess]. rewrite (cons_unlocked _ Hc).
  destruct (processes st !! name) as [p|] eqn:Hn; [|eauto].
  destruct (cons_registry _ Hc name p Hn) as (proc & Hp & _).
  destruct (cons_heap _ Hc p proc Hp) as (_ & Hcl & [pid Hcmd]).
  rewrite Hp, Hcl, Hcmd. simpl.
  destruct (os_signal os pid force); simpl.
  - eexists _, _. split; [done|].
    apply consistent_addTask_other; [done|].
    apply consistent_setStatus. by apply consistent_logSignal.
  - eexists _, _. split; [done|]. by apply consistent_logSignal.
Qed.

Lemma consistent_stopWaiter name st :
  consistent st ->
  exists st', stopWaiter name st = Returned tt st' /\ consistent st'.
Proof.
  intros Hc. unfold stopWaiter.
  change (mutex (setPidFiles (delete name) st)) with (mutex st).
  rewrite (cons_unlocked _ Hc). eexists. split; [done|]. by apply consistent_forget.
Qed.

Lemma consistent_step logsPath ev st :
  consistent st ->
  plainEvent ev ->
  exists st', step logsPath ev st = Returned tt st' /\ consistent st'.
Proof.
  intros Hc Hev. destruct ev as [os cfg|os name force|os p waitErr|p name]; cbn [step].
  - simpl in Hev.
    destruct (StartProcess_plain 1 os logsPath cfg st (cons_unlocked _ Hc) Hev)
      as [(e & He)|(pid & logFiles & st1 & H1 & _)].
    + rewrite He. eauto.
    + rewrite H1. eexists. split; [done|]. by eapply consistent_StartProcess.
  - destruct (consistent_StopProcess 1 os name force st Hc) as (r & st1 & -> & Hc1).
    eauto.
  - destruct (decide (TMonitor p ∈ tasks st)) as [Hin|Hout]; [|eauto].
    apply consistent_monitorProcess; [by apply consistent_retire|].
    by apply (cons_monitors _ Hc).
  - destruct (decide (TStopWait p name ∈ tasks st)); [|eauto].
    apply consistent_stopWaiter. by apply consistent_retire.
Qed.




(** ** Start, get, stop *)

(** Only a plain descriptor, started on a free lock, comes back with a record. *)
Lemma StartProcess_Ok_plain fuel os logsPath cfg st p st' :
  StartProcess fuel os logsPath cfg st = Returned (Ok p) st' ->
  Instances (Cluster cfg) <= 1 /\ mutex st = false /\ exists fuel', fuel = S fuel'.
Proof.
  intros H.
  destruct fuel as [|fuel]; [discriminate|].
  destruct (mutex st) eqn:Hm; [cbn [StartProcess] in H; rewrite Hm in H; discriminate|].
  split; [|split; [done|by eexists]].
  destruct (Z.leb_spec (Instances (Cluster cfg)) 1) as [Hk|Hk]; [done|exfalso].
  destruct (registeredRunning st (Name cfg)) eqn:Hr.
  { cbn [StartProcess] in H. rewrite Hm, registeredRunning_locked, Hr in H. discriminate. }
  destruct fuel as [|fuel].
  - cbn [StartProcess] in H. rewrite Hm, registeredRunning_locked, Hr in H.
    replace (1 <? Instances (Cluster cfg)) with true in H by (symmetry; apply Z.ltb_lt; lia).
    unfold startClusterProcess in H.
    replace (Instances (Cluster cfg) <=? 0) with false in H by (symmetry; apply Z.leb_gt; lia).
    destruct (Z.to_nat (Instances (Cluster cfg))) as [|n] eqn:Hn; [lia|].
    simpl in H. discriminate.
  - rewrite (cluster_start_outcome fuel os logsPath cfg st Hm Hr Hk) in H. discriminate.
Qed.

(** A start that returns a record has registered it: [GetProcess] on the name
    returns the same record, running, with the pid of the spawned child and a
    restart counter of zero; the PID file holds the pid when it could be
    written; the record is in the process list and has its monitor; no other
    name's entry has changed. *)
Theorem start_then_get fuel os logsPath cfg st p st' :
  StartProcess fuel os logsPath cfg st = Returned (Ok p) st' ->
  GetProcess (Name cfg) st' = Returned (Ok p) st'
  /\ (exists pid logFiles,
        os_cmdStart os cfg = Some pid
        /\ heap st' !! p = Some (mkProc cfg (Some pid) pid "running" 0 logFiles [])
        /\ (os_writePID os (Name cfg) = true -> pidFiles st' !! Name cfg = Some pid))
  /\ TMonitor p ∈ tasks st'
  /\ (exists l, ListProcesses st' = Returned l st' /\ p ∈ l)
  /\ (forall other, other <> Name cfg -> processes st' !! other = processes st !! other).
Proof.
  intros H.
  destruct (StartProcess_Ok_plain _ _ _ _ _ _ _ H) as (Hk & Hm & fuel' & ->).
  destruct (StartProcess_plain fuel' os logsPath cfg st Hm Hk)
    as [(e & He)|(pid & logFiles & st1 & H1 & Hcmd & _ & Hheap & Hpr & Hm1 & _ & _ & Hpid & Htasks)];
    rewrite H in *; [discriminate|].
  injection H1 as -> <-.
  assert (Hreg : processes st' !! Name cfg = Some (length (heap st))).
  { rewrite Hpr. apply lookup_insert_eq. }
  split.
  { unfold GetProcess. by rewrite Hm1, Hreg. }
  split.
  { exists pid, logFiles. split; [done|]. split.
    - rewrite Hheap. by rewrite list_lookup_middle.
    - intros Hw. rewrite Hpid, Hw. apply lookup_insert_eq. }
  split.
  { rewrite Htasks. apply elem_of_app. right. by apply list_elem_of_singleton. }
  split.
  { unfold ListProcesses. rewrite Hm1. eexists. split; [done|].
    apply list_elem_of_fmap. exists (Name cfg, length (heap st)). split; [done|].
    by apply elem_of_map_to_list. }
  intros other Hne. rewrite Hpr. by apply lookup_insert_ne.
Qed.

Lemma start_then_get_witness :
  exists st',
    StartProcess 2 (osAllOk 0) "/logs" (plainConfig "svc" "always" 0 0) NewProcessManager
    = Returned (Ok 0%nat) st'
    /\ GetProcess "svc" st' = Returned (Ok 0%nat) st'.
Proof.
  eexists. split; [vm_compute; reflexivity|].
  apply (start_then_get 2 (osAllOk 0) "/logs" (plainConfig "svc" "always" 0 0)
           NewProcessManager 0%nat).
  vm_compute. reflexivity.
Defined.

(** Any error return of [StopProcess] (unknown name, signal not delivered)
    leaves registry, records, goroutines and PID files as they were; only the
    attempted signal is on record. *)
Theorem failed_stop_changes_nothing fuel os name force st e st' :
  StopProcess fuel os name force st = Returned (Some e) st' ->
  processes st' = processes st
  /\ heap st' = heap st
  /\ tasks st' = tasks st
  /\ pidFiles st' = pidFiles st
  /\ spawned st' = spawned st
  /\ mutex st' = mutex st.
Proof.
  destruct fuel as [|fuel]; [discriminate|].
  cbn [StopProcess].
  destruct (mutex st) eqn:Hm; [discriminate|].
  destruct (processes st !! name) as [p|]; [|intros [= _ <-]; by repeat split].
  destruct (heap st !! p) as [proc|]; [|discriminate].
  destruct (0 <? length (ClusterProcs proc))%nat.
  { destruct (stopWorkers _ _ _ _) as [[] st1| | |]; try discriminate.
    destruct (mutex (setStatus p "stopped" st1)); discriminate. }
  destruct (Cmd proc) as [pid|]; [|discriminate].
  destruct (os_signal os pid force); simpl; [discriminate|].
  intros [= _ <-]. by repeat split.
Qed.

Lemma failed_stop_changes_nothing_witness :
  processes (logSignal 100 true svcStarted) = processes svcStarted
  /\ heap (logSignal 100 true svcStarted) = heap svcStarted
  /\ tasks (logSignal 100 true svcStarted) = tasks svcStarted
  /\ pidFiles (logSignal 100 true svcStarted) = pidFiles svcStarted
  /\ spawned (logSignal 100 true svcStarted) = spawned svcStarted
  /\ mutex (logSignal 100 true svcStarted) = mutex svcStarted.
Proof.
  apply (failed_stop_changes_nothing 1 osNoSignal "svc" true svcStarted ErrSignal).
  vm_compute. reflexivity.
Defined.


Lemma elem_of_retire_ne (t t' : task) ts : t <> t' -> t' ∈ ts -> t' ∈ retire t ts.
Proof.
  intros Hne. induction ts as [|x ts IH]; simpl; [done|].
  rewrite elem_of_cons. intros [->|Hin].
  - destruct (decide (t = x)); [done|]. apply list_elem_of_here.
  - destruct (decide (t = x)); [done|]. apply list_elem_of_further. by apply IH.
Qed.

(** The life of a plain process that is stopped by request: the stop returns
    nil and leaves the record registered with status "stopped"; once the
    waiter has seen the child exit, the name is unknown to [GetProcess] and
    the PID file is gone; and when the restart policy does not allow a
    restart, the monitor of the same child changes nothing of that, in
    particular it spawns nothing. *)
Theorem stop_then_waiter_removes fuel os os2 logsPath cfg force st p st1 :
  StartProcess fuel os logsPath cfg st = Returned (Ok p) st1 ->
  (forall pid, os_cmdStart os cfg = Some pid -> os_signal os2 pid force = true) ->
  exists st2 st3,
    StopProcess 1 os2 (Name cfg) force st1 = Returned None st2
    /\ statusAt st2 p = Some "stopped"
    /\ processes st2 = processes st1
    /\ step logsPath (EvStopWaitDone p (Name cfg)) st2 = Returned tt st3
    /\ GetProcess (Name cfg) st3 = Returned (Err (ErrNotFound (Name cfg))) st3
    /\ pidFiles st3 !! Name cfg = None
    /\ spawned st3 = spawned st1
    /\ (forall os3 waitErr,
          ~ policyAllows cfg waitErr ->
          exists st4,
            step logsPath (EvExit os3 p waitErr) st3 = Returned tt st4
            /\ spawned st4 = spawned st1
            /\ processes st4 !! Name cfg = None
            /\ pidFiles st4 !! Name cfg = None).
Proof.
  intros H Hsig.
  destruct (StartProcess_Ok_plain _ _ _ _ _ _ _ H) as (Hk & Hm & fuel' & ->).
  destruct (StartProcess_plain fuel' os logsPath cfg st Hm Hk)
    as [(e & He)|(pid & logFiles & st1' & H1 & Hcmd & _ & Hheap & Hpr & Hm1 & _ & _ & Hpid & Htasks)];
    rewrite H in *; [discriminate|].
  injection H1 as -> <-.
  set (p := length (heap st)) in *.
  set (proc := mkProc cfg (Some pid) pid "running" 0 logFiles []) in *.
  assert (Hreg : processes st1 !! Name cfg = Some p).
  { rewrite Hpr. apply lookup_insert_eq. }
  assert (Hp : heap st1 !! p = Some proc).
  { rewrite Hheap. by apply list_lookup_middle. }
  set (st2 := addTask (TStopWait p (Name cfg))
                (setStatus p "stopped" (logSignal pid force st1))).
  assert (Hstop : StopProcess 1 os2 (Name cfg) force st1 = Returned None st2).
  { cbn [StopProcess]. rewrite Hm1, Hreg, Hp. simpl.
    by rewrite (Hsig pid Hcmd). }
  assert (Hp2 : heap st2 !! p = Some (withStatus "stopped" proc)).
  { unfold st2; simpl. by rewrite list_lookup_alter_eq, Hp. }
  set (st3 := setProcesses (delete (Name cfg))
                (setPidFiles (delete (Name cfg))
                   (retireTask (TStopWait p (Name cfg)) st2))).
  assert (Hwait : step logsPath (EvStopWaitDone p (Name cfg)) st2 = Returned tt st3).
  { cbn [step]. rewrite decide_True.
    - unfold stopWaiter. simpl. by rewrite Hm1.
    - unfold st2; simpl. apply elem_of_app. right. by apply list_elem_of_singleton. }
  exists st2, st3.
  split; [exact Hstop|].
  split; [unfold statusAt; by rewrite Hp2|].
  split; [done|].
  split; [exact Hwait|].
  split.
  { unfold GetProcess. simpl. by rewrite Hm1, lookup_delete_eq. }
  split; [simpl; apply lookup_delete_eq|].
  split; [done|].
  intros os3 waitErr Hno.
  assert (Hmon : TMonitor p ∈ tasks st3).
  { simpl. apply elem_of_retire_ne; [done|].
    apply elem_of_app. left. rewrite Htasks.
    apply elem_of_app. right. by apply list_elem_of_singleton. }
  cbn [step]. rewrite decide_True by exact Hmon.
  unfold monitorProcess.
  change (heap (retireTask (TMonitor p) st3)) with (heap st2). rewrite Hp2.
  assert (Hdec : shouldRestart cfg waitErr = false).
  { apply not_true_is_false. by rewrite shouldRestart_policy. }
  change (Config (withStatus "stopped" proc)) with cfg. rewrite Hdec. simpl.
  rewrite Hm1. eexists. split; [reflexivity|]. simpl.
  split; [done|]. split; apply lookup_delete_eq.
Qed.

Lemma stop_then_waiter_removes_witness :
  exists st2 st3,
    StopProcess 1 (osAllOk 0) "svc" true svcStarted = Returned None st2
    /\ step "/logs" (EvStopWaitDone 0%nat "svc") st2 = Returned tt st3
    /\ GetProcess "svc" st3 = Returned (Err (ErrNotFound "svc")) st3.
Proof.
  destruct (stop_then_waiter_removes 2 (osAllOk 0) (osAllOk 0) "/logs"
              (plainConfig "svc" "no" 0 0) true NewProcessManager 0%nat svcStarted)
    as (st2 & st3 & H1 & _ & _ & H2 & H3 & _).
  - vm_compute. reflexivity.
  - reflexivity.
  - by exists st2, st3.
Defined.


(** ** Recovery of running processes *)

Lemma loadEach_spec b processesPath entries st :
  NoDup entries.*1 ->
  mutex st = false ->
  exists st',
    loadEach b processesPath entries st = Returned tt st'
    /\ mutex st' = false
    /\ tasks st' = tasks st
    /\ spawned st' = spawned st
    /\ pidFiles st' = pidFiles st
    /\ (forall p proc, heap st !! p = Some proc -> heap st' !! p = Some proc)
    /\ (forall name pid cfg,
          (name, pid) ∈ entries ->
          configFor b processesPath name = Some cfg ->
          exists p,
            processes st' !! name = Some p
            /\ heap st' !! p = Some (mkProc cfg None pid "running" 0 [] []))
    /\ (forall name,
          name ∉ entries.*1 \/ configFor b processesPath name = None ->
          processes st' !! name = processes st !! name).
Proof.
  revert st. induction entries as [|[name pid] rest IH]; intros st Hnd Hm.
  { exists st. simpl. repeat split; try done.
    intros name pid cfg Hin. by apply elem_of_nil in Hin. }
  simpl in Hnd. apply NoDup_cons in Hnd as [Hfresh Hnd].
  cbn [loadEach].
  destruct (configFor b processesPath name) as [cfg|] eqn:Hcfg.
  - rewrite Hm.
    set (st1 := setProcesses (fun m => <[name := length (heap st)]> m)
                  (setHeap (fun h => h ++ [mkProc cfg None pid "running" 0 [] []]) st)).
    destruct (IH st1 Hnd Hm) as (st' & Hrun & Hm' & Ht & Hs & Hpf & Hheap & Hin & Hout).
    exists st'. split; [exact Hrun|]. repeat split; try done.
    + intros p proc Hp. apply Hheap. simpl. by apply lookup_app_l_Some.
    + intros n pid' cfg' Hmem Hc.
      apply elem_of_cons in Hmem as [[= -> ->]|Hmem]; [|by eapply Hin].
      rewrite Hcfg in Hc. injection Hc as <-.
      exists (length (heap st)). split.
      * rewrite (Hout name (or_introl Hfresh)). simpl. apply lookup_insert_eq.
      * apply Hheap. simpl. by apply list_lookup_middle.
    + intros n Hn. rewrite (Hout n).
      * simpl. apply lookup_insert_ne. intros <-.
        destruct Hn as [Hn|Hn]; [|congruence].
        apply Hn. simpl. apply list_elem_of_here.
      * destruct Hn as [Hn|Hn]; [left|by right].
        intros Hr. apply Hn. simpl. by apply list_elem_of_further.
  - destruct (IH st Hnd Hm) as (st' & Hrun & Hm' & Ht & Hs & Hpf & Hheap & Hin & Hout).
    exists st'. split; [exact Hrun|]. repeat split; try done.
    + intros n pid' cfg' Hmem Hc.
      apply elem_of_cons in Hmem as [[= -> ->]|Hmem]; [congruence|by eapply Hin].
    + intros n Hn. apply Hout.
      destruct (decide (n = name)) as [->|Hne]; [by right|].
      destruct Hn as [Hn|Hn]; [left|by right].
      intros Hr. apply Hn. simpl. by apply list_elem_of_further.
Qed.

Lemma running_entries b (files : gmap string Z) name pid' :
  (name, pid') ∈ map_to_list (int32 <$> filter (livePid b) files)
  <-> exists pid,
        files !! name = Some pid /\ boot_alive b (int32 pid) = true /\ pid' = int32 pid.
Proof.
  rewrite elem_of_map_to_list, lookup_fmap, fmap_Some.
  split.
  - intros (pid & Hf & ->). apply map_lookup_filter_Some in Hf as [Hf Hl]. eauto.
  - intros (pid & Hf & Hl & ->). exists pid. split; [|done].
    by apply map_lookup_filter_Some.
Qed.

Lemma LoadRunningProcesses_spec b processesPath st :
  mutex st = false ->
  boot_readDir b = true ->
  exists st',
    LoadRunningProcesses b processesPath st = Returned None st'
    /\ mutex st' = false
    /\ pidFiles st' = filter (livePid b) (pidFiles st)
    /\ tasks st' = tasks st
    /\ spawned st' = spawned st
    /\ (forall p proc, heap st !! p = Some proc -> heap st' !! p = Some proc)
    /\ (forall name pid cfg,
          pidFiles st !! name = Some pid ->
          boot_alive b (int32 pid) = true ->
          configFor b processesPath name = Some cfg ->
          exists p,
            processes st' !! name = Some p
            /\ heap st' !! p = Some (mkProc cfg None (int32 pid) "running" 0 [] []))
    /\ (forall name,
          (forall pid, pidFiles st !! name = Some pid -> boot_alive b (int32 pid) = false)
          \/ configFor b processesPath name = None ->
          processes st' !! name = processes st !! name).
Proof.
  intros Hm Hdir.
  unfold LoadRunningProcesses, GetRunningProcesses. rewrite Hdir. simpl.
  set (running := int32 <$> filter (livePid b) (pidFiles st)).
  destruct (loadEach_spec b processesPath (map_to_list running)
              (setPidFiles (filter (livePid b)) st))
    as (st' & Hrun & Hm' & Ht & Hs & Hpf & Hheap & Hin & Hout).
  { apply NoDup_fst_map_to_list. }
  { exact Hm. }
  rewrite Hrun. exists st'. split; [done|]. repeat split; try done.
  - intros name pid cfg Hf Hl Hc. apply (Hin name (int32 pid) cfg); [|done].
    apply running_entries. eauto.
  - intros name Hn. rewrite (Hout name); [done|].
    destruct Hn as [Hn|Hn]; [left|by right].
    intros Hmem. apply list_elem_of_fmap in Hmem as ([n pid'] & -> & Hmem).
    apply running_entries in Hmem as (pid & Hf & Hl & _).
    simpl in Hn. rewrite (Hn pid Hf) in Hl. discriminate.
Qed.



(** A process that was re-attached at start-up cannot be stopped or restarted
    through the manager: its record has no command handle, and [StopProcess]
    (and with it [RestartProcess]) dereferences that nil handle. *)
Theorem recovered_process_cannot_be_stopped b processesPath st name pid cfg st'
    fuel os logsPath force :
  mutex st = false ->
  LoadRunningProcesses b processesPath st = Returned None st' ->
  pidFiles st !! name = Some pid ->
  boot_alive b (int32 pid) = true ->
  configFor b processesPath name = Some cfg ->
  StopProcess (S fuel) os name force st' = Panicked st'
  /\ RestartProcess (S fuel) os logsPath name st' = Panicked st'.
Proof.
  intros Hm Hload Hpid Hlive Hcfg.
  assert (Hdir : boot_readDir b = true).
  { destruct (boot_readDir b) eqn:Hd; [done|].
    unfold LoadRunningProcesses, GetRunningProcesses in Hload.
    rewrite Hd in Hload. discriminate. }
  destruct (LoadRunningProcesses_spec b processesPath st Hm Hdir)
    as (st1 & Hload1 & Hm1 & _ & _ & _ & _ & Hin & _).
  rewrite Hload in Hload1. injection Hload1 as <-.
  destruct (Hin name pid cfg Hpid Hlive Hcfg) as (p & Hp & Hh).
  assert (Hstop : forall f, StopProcess (S f) os name force st' = Panicked st').
  { intros f. cbn [StopProcess]. by rewrite Hm1, Hp, Hh. }
  split; [apply Hstop|].
  cbn [RestartProcess]. rewrite Hm1, Hp, Hh. simpl.
  change (StopProcess (S fuel) os name false st') with
    (match S fuel with S f => StopProcess (S f) os name false st' | O => OutOfFuel end).
  cbn [StopProcess]. by rewrite Hm1, Hp, Hh.
Qed.

Lemma recovered_process_cannot_be_stopped_witness :
  exists st',
    LoadRunningProcesses bootExample "/proc" bootState = Returned None st'
    /\ StopProcess 1 (osAllOk 0) "svc" true st' = Panicked st'
    /\ RestartProcess 1 (osAllOk 0) "/logs" "svc" st' = Panicked st'.
Proof.
  eexists. split; [vm_compute; reflexivity|].
  apply (recovered_process_cannot_be_stopped bootExample "/proc" bootState "svc" 100
           (withDefaults (plainConfig "svc" "" 0 0))).
  - reflexivity.
  - vm_compute. reflexivity.
  - vm_compute. reflexivity.
  - reflexivity.
  - reflexivity.
Defined.


(** ** Restart on request *)

(** The stop of a registered plain record, spelled out. *)
Lemma StopProcess_plain fuel os name force st p proc pid :
  mutex st = false ->
  processes st !! name = Some p ->
  heap st !! p = Some proc ->
  ClusterProcs proc = [] ->
  Cmd proc = Some pid ->
  StopProcess (S fuel) os name force st
  = if os_signal os pid force
    then Returned None
           (addTask (TStopWait p name) (setStatus p "stopped" (logSignal pid force st)))
    else Returned (Some ErrSignal) (logSignal pid force st).
Proof.
  intros Hm Hreg Hp Hcl Hcmd.
  cbn [StopProcess]. rewrite Hm, Hreg, Hp, Hcl, Hcmd. simpl.
  by destruct (os_signal os pid force).
Qed.

Lemma RestartProcess_plain fuel os logsPath name st p proc pid :
  mutex st = false ->
  processes st !! name = Some p ->
  heap st !! p = Some proc ->
  ClusterProcs proc = [] ->
  Cmd proc = Some pid ->
  RestartProcess (S fuel) os logsPath name st
  = if os_signal os pid false
    then
      match StartProcess (S fuel) os logsPath (Config proc)
              (addTask (TStopWait p name) (setStatus p "stopped" (logSignal pid false st)))
      with
      | Returned (Ok _) st2 => Returned None st2
      | Returned (Err e) st2 => Returned (Some e) st2
      | Blocked st2 => Blocked st2
      | Panicked st2 => Panicked st2
      | OutOfFuel => OutOfFuel
      end
    else Returned (Some ErrSignal) (logSignal pid false st).
Proof.
  intros Hm Hreg Hp Hcl Hcmd.
  cbn [RestartProcess]. rewrite Hm, Hreg, Hp, Hcl.
  change (0 <? length (@nil nat))%nat with false. cbv iota.
  rewrite (StopProcess_plain fuel os name false st p proc pid Hm Hreg Hp Hcl Hcmd).
  by destruct (os_signal os pid false).
Qed.

(** The state after the stop half of a restart still lets the start half in:
    the registered record now says "stopped". *)
Lemma stopped_not_running name st p proc pid force :
  processes st !! name = Some p ->
  heap st !! p = Some proc ->
  registeredRunning
    (addTask (TStopWait p name) (setStatus p "stopped" (logSignal pid force st))) name
  = false.
Proof.
  intros Hreg Hp. unfold registeredRunning. simpl.
  by rewrite Hreg, list_lookup_alter_eq, Hp.
Qed.

Lemma RestartProcess_success fuel os logsPath name st p proc pid :
  mutex st = false ->
  processes st !! name = Some p ->
  heap st !! p = Some proc ->
  ClusterProcs proc = [] ->
  Cmd proc = Some pid ->
  Name (Config proc) = name ->
  Instances (Cluster (Config proc)) <= 1 ->
  os_signal os pid false = true ->
  startFails os logsPath (Config proc) = false ->
  exists st' newPid logFiles,
    RestartProcess (S fuel) os logsPath name st = Returned None st'
    /\ os_cmdStart os (Config proc) = Some newPid
    /\ mutex st' = false
    /\ signalled st' = signalled st ++ [(pid, false)]
    /\ spawned st' = spawned st ++ [(name, newPid)]
    /\ processes st' = <[name := length (heap st)]> (processes st)
    /\ heap st'
       = alter (withStatus "stopped") p (heap st)
         ++ [mkProc (Config proc) (Some newPid) newPid "running" 0 logFiles []]
    /\ TStopWait p name ∈ tasks st'
    /\ TMonitor (length (heap st)) ∈ tasks st'.
Proof.
  intros Hm Hreg Hp Hcl Hcmd Hname Hk Hsig Hf.
  rewrite (RestartProcess_plain fuel os logsPath name st p proc pid Hm Hreg Hp Hcl Hcmd), Hsig.
  set (st1 := addTask (TStopWait p name) (setStatus p "stopped" (logSignal pid false st))).
  assert (Hr1 : registeredRunning st1 (Name (Config proc)) = false).
  { rewrite Hname. by eapply stopped_not_running. }
  destruct (StartProcess_success fuel os logsPath (Config proc) st1 Hm Hr1 Hk Hf)
    as (newPid & lf & st2 & Hc & Hs & _).
  destruct (StartProcess_plain fuel os logsPath (Config proc) st1 Hm Hk)
    as [(e & He)|(newPid' & logFiles & st2' & H2 & Hc' & _ & Hheap & Hpr & Hm2 & Hsp & Hsg & _ & Htasks)].
  { rewrite Hs in He. discriminate. }
  rewrite H2. exists st2', newPid', logFiles.
  assert (Hlen : length (heap st1) = length (heap st)).
  { unfold st1; simpl. apply length_alter. }
  rewrite Hlen in *. rewrite Hname in *.
  split; [done|]. split; [done|]. split; [done|]. split; [by rewrite Hsg|].
  split; [done|]. split; [done|]. split; [done|].
  rewrite Htasks. split.
  - apply elem_of_app. left. apply elem_of_app. left. unfold st1; simpl.
    apply elem_of_app. right. by apply list_elem_of_singleton.
  - apply elem_of_app. right. by apply list_elem_of_singleton.
Qed.

(** A restart of a running plain process whose stop signal is delivered and
    whose start does not fail returns nil: the old child has been sent
    SIGTERM and its record says "stopped", the command has been spawned once
    more, and the name now points to a new running record whose restart
    counter is zero. *)
Theorem restart_replaces_record fuel os logsPath name st p proc pid :
  mutex st = false ->
  processes st !! name = Some p ->
  heap st !! p = Some proc ->
  ClusterProcs proc = [] ->
  Cmd proc = Some pid ->
  Name (Config proc) = name ->
  Instances (Cluster (Config proc)) <= 1 ->
  os_signal os pid false = true ->
  startFails os logsPath (Config proc) = false ->
  exists st' newPid,
    RestartProcess (S fuel) os logsPath name st = Returned None st'
    /\ signalled st' = signalled st ++ [(pid, false)]
    /\ spawned st' = spawned st ++ [(name, newPid)]
    /\ statusAt st' p = Some "stopped"
    /\ processes st' !! name = Some (length (heap st))
    /\ statusAt st' (length (heap st)) = Some "running"
    /\ restartsAt st' (length (heap st)) = Some 0
    /\ Config <$> heap st' !! length (heap st) = Some (Config proc).
Proof.
  intros Hm Hreg Hp Hcl Hcmd Hname Hk Hsig Hf.
  destruct (RestartProcess_success fuel os logsPath name st p proc pid
              Hm Hreg Hp Hcl Hcmd Hname Hk Hsig Hf)
    as (st' & newPid & logFiles & Hr & _ & _ & Hsg & Hsp & Hpr & Hheap & _).
  exists st', newPid. split; [exact Hr|]. split; [exact Hsg|]. split; [exact Hsp|].
  assert (Hlen : length (alter (withStatus "stopped") p (heap st)) = length (heap st))
    by apply length_alter.
  unfold statusAt, restartsAt. rewrite Hheap, Hpr.
  split.
  { rewrite lookup_app_l by (rewrite Hlen; by apply lookup_lt_Some in Hp).
    by rewrite list_lookup_alter_eq, Hp. }
  split; [apply lookup_insert_eq|].
  rewrite <- Hlen. by rewrite list_lookup_middle.
Qed.

Lemma restart_replaces_record_witness :
  exists st' newPid,
    RestartProcess 1 (osAllOk 1) "/logs" "svc" svcStarted = Returned None st'
    /\ signalled st' = signalled svcStarted ++ [(100, false)]
    /\ spawned st' = spawned svcStarted ++ [("svc", newPid)]
    /\ statusAt st' 0%nat = Some "stopped"
    /\ processes st' !! "svc" = Some (length (heap svcStarted))
    /\ statusAt st' (length (heap svcStarted)) = Some "running"
    /\ restartsAt st' (length (heap svcStarted)) = Some 0
    /\ Config <$> heap st' !! length (heap svcStarted) = Some (plainConfig "svc" "no" 0 0).
Proof.
  apply (restart_replaces_record 0 (osAllOk 1) "/logs" "svc" svcStarted 0%nat
           (mkProc (plainConfig "svc" "no" 0 0) (Some 100) 100 "running" 0
              [("stdout", "/logs/svc.out.log"); ("stderr", "/logs/svc.err.log")] [])
           100).
  - reflexivity.
  - vm_compute. reflexivity.
  - reflexivity.
  - reflexivity.
  - reflexivity.
  - reflexivity.
  - simpl. lia.
  - reflexivity.
  - reflexivity.
Defined.

(** After such a restart the waiter of the old child is still pending.  When
    it sees the old child exit it deletes the registry entry and the PID file
    of the name, which by then belong to the new child: the new child keeps
    running under its monitor, but [GetProcess] no longer finds it. *)
Theorem restart_then_old_waiter_unregisters fuel os logsPath name st p proc pid :
  mutex st = false ->
  processes st !! name = Some p ->
  heap st !! p = Some proc ->
  ClusterProcs proc = [] ->
  Cmd proc = Some pid ->
  Name (Config proc) = name ->
  Instances (Cluster (Config proc)) <= 1 ->
  os_signal os pid false = true ->
  startFails os logsPath (Config proc) = false ->
  exists st' st'',
    RestartProcess (S fuel) os logsPath name st = Returned None st'
    /\ processes st' !! name = Some (length (heap st))
    /\ step logsPath (EvStopWaitDone p name) st' = Returned tt st''
    /\ GetProcess name st'' = Returned (Err (ErrNotFound name)) st''
    /\ pidFiles st'' !! name = None
    /\ statusAt st'' (length (heap st)) = Some "running"
    /\ TMonitor (length (heap st)) ∈ tasks st''.
Proof.
  intros Hm Hreg Hp Hcl Hcmd Hname Hk Hsig Hf.
  destruct (RestartProcess_success fuel os logsPath name st p proc pid
              Hm Hreg Hp Hcl Hcmd Hname Hk Hsig Hf)
    as (st' & newPid & logFiles & Hr & _ & Hm' & _ & _ & Hpr & Hheap & Hwait & Hmon).
  exists st'. eexists. split; [exact Hr|].
  split; [rewrite Hpr; apply lookup_insert_eq|].
  split.
  { cbn [step]. rewrite decide_True by exact Hwait.
    unfold stopWaiter. simpl. rewrite Hm'. reflexivity. }
  split.
  { unfold GetProcess. simpl. by rewrite Hm', lookup_delete_eq. }
  split; [simpl; apply lookup_delete_eq|].
  split.
  { unfold statusAt. simpl. rewrite Hheap.
    rewrite <- (length_alter (withStatus "stopped") (heap st) p).
    by rewrite list_lookup_middle. }
  simpl. by apply elem_of_retire_ne.
Qed.

Lemma restart_then_old_waiter_unregisters_witness :
  exists st' st'',
    RestartProcess 1 (osAllOk 1) "/logs" "svc" svcStarted = Returned None st'
    /\ processes st' !! "svc" = Some (length (heap svcStarted))
    /\ step "/logs" (EvStopWaitDone 0%nat "svc") st' = Returned tt st''
    /\ GetProcess "svc" st'' = Returned (Err (ErrNotFound "svc")) st''
    /\ pidFiles st'' !! "svc" = None
    /\ statusAt st'' (length (heap svcStarted)) = Some "running"
    /\ TMonitor (length (heap svcStarted)) ∈ tasks st''.
Proof.
  apply (restart_then_old_waiter_unregisters 0 (osAllOk 1) "/logs" "svc" svcStarted 0%nat
           (mkProc (plainConfig "svc" "no" 0 0) (Some 100) 100 "running" 0
              [("stdout", "/logs/svc.out.log"); ("stderr", "/logs/svc.err.log")] [])
           100).
  - reflexivity.
  - vm_compute. reflexivity.
  - reflexivity.
  - reflexivity.
  - reflexivity.
  - reflexivity.
  - simpl. lia.
  - reflexivity.
  - reflexivity.
Defined.





(** ** The cluster handlers and the worker filter *)



Lemma string_length_app (s t : string) :
  String.length (s +:+ t) = (String.length s + String.length t)%nat.
Proof. induction s as [|c s IH]; simpl; [done|by rewrite IH]. Qed.

Lemma substring_app_r (s t : string) n :
  substring (String.length s) n (s +:+ t) = substring 0 n t.
Proof. induction s as [|c s IH]; simpl; [done|exact IH]. Qed.

Lemma substring_split (s : string) n :
  (n <= String.length s)%nat ->
  s = substring 0 n s +:+ substring n (String.length s - n) s.
Proof.
  revert n. induction s as [|c s IH]; intros n Hn; simpl in Hn.
  - by replace n with 0%nat by lia.
  - destruct n as [|n].
    + simpl. by rewrite substring_whole.
    + change (String c s = String c (substring 0 n s +:+ substring n (String.length s - n) s)).
      f_equal. apply IH. lia.
Qed.

(** The names the filter drops: exactly those that consist of a non-empty
    prefix followed by "-worker-". *)
Lemma isClusterWorker_iff name :
  Api.isClusterWorker name = true
  <-> exists pre, pre <> "" /\ name = pre +:+ "-worker-".
Proof.
  unfold Api.isClusterWorker. rewrite andb_true_iff, Nat.ltb_lt, String.eqb_eq.
  split.
  - intros [Hlen Hsuf].
    exists (substring 0 (String.length name - 8) name). split.
    + intros He.
      pose proof (substring_split name (String.length name - 8) ltac:(lia)) as Hs.
      rewrite He in Hs. simpl in Hs.
      replace (String.length name - (String.length name - 8))%nat with 8%nat in Hs by lia.
      rewrite Hsuf in Hs. rewrite Hs in Hlen. simpl in Hlen. lia.
    + pose proof (substring_split name (String.length name - 8) ltac:(lia)) as Hs.
      replace (String.length name - (String.length name - 8))%nat with 8%nat in Hs by lia.
      by rewrite Hsuf in Hs.
  - intros (pre & Hne & ->). rewrite string_length_app. simpl String.length.
    split; [destruct pre; [done|simpl; lia]|].
    replace (String.length pre + 8 - 8)%nat with (String.length pre) by lia.
    by rewrite substring_app_r.
Qed.

Lemma elem_of_filterTopLevel h procs p :
  p ∈ Api.filterTopLevel h procs
  <-> p ∈ procs
      /\ exists proc, h !! p = Some proc /\ Api.isClusterWorker (Name (Config proc)) = false.
Proof.
  induction procs as [|q procs IH]; simpl.
  { split; [by intros H; apply elem_of_nil in H|by intros [H _]; apply elem_of_nil in H]. }
  destruct (h !! q) as [proc|] eqn:Hq.
  - destruct (Api.isClusterWorker (Name (Config proc))) eqn:Hw; simpl.
    + rewrite IH, elem_of_cons. split; [intros [Hin Hex]; split; [by right|done]|].
      intros [[->|Hin] (proc' & Hp & Hf)]; [congruence|eauto].
    + rewrite !elem_of_cons, IH. split.
      * intros [->|[Hin Hex]]; [eauto|eauto].
      * intros [[->|Hin] Hex]; [by left|right; by split].
  - rewrite IH, elem_of_cons. split; [intros [Hin Hex]; split; [by right|done]|].
    intros [[->|Hin] (proc' & Hp & Hf)]; [congruence|eauto].
Qed.




(** ** The script service *)

(** An [Add] that returns nil found the name free, the file present, the
    process known (or none given) and the cron expression accepted (or none
    given); afterwards [Get] returns the script as given, every other name
    reads as before, and the scheduler has gained the script exactly when a
    cron expression was given. *)
Theorem Add_success env name file schedule process st st' :
  Scripts.Add env name file schedule process st = (None, st') ->
  Scripts.Get name st = None
  /\ Scripts.notExist env file = false
  /\ (process = "" \/ Scripts.processKnown env process = true)
  /\ (schedule = "" \/ Scripts.cronAccepts env schedule = true)
  /\ Scripts.Get name st' = Some (Scripts.mkScript name file schedule process)
  /\ (forall other, other <> name -> Scripts.Get other st' = Scripts.Get other st)
  /\ Scripts.scheduled st'
     = Scripts.scheduled st
       ++ (if String.eqb schedule "" then []
           else [Scripts.mkScript name file schedule process]).
Proof.
  unfold Scripts.Add.
  destruct (Scripts.Get name st) eqn:Hg; [discriminate|].
  destruct (Scripts.notExist env file) eqn:Hf; [discriminate|].
  destruct (String.eqb_spec process "") as [Hp|Hp]; simpl.
  - unfold Scripts.saveScript; simpl.
    destruct (Scripts.writeOk env name); [|discriminate].
    destruct (String.eqb_spec schedule "") as [Hs|Hs]; simpl.
    + intros [= <-]. unfold Scripts.Get; simpl.
      repeat split; auto.
      * apply lookup_insert_eq.
      * intros other Hne. by apply lookup_insert_ne.
      * by rewrite app_nil_r.
    + unfold Scripts.scheduleScript; simpl.
      apply String.eqb_neq in Hs. rewrite Hs.
      destruct (Scripts.cronAccepts env schedule) eqn:Hc; [|discriminate].
      intros [= <-]. unfold Scripts.Get; simpl.
      repeat split; auto.
      * apply lookup_insert_eq.
      * intros other Hne. by apply lookup_insert_ne.
  - destruct (Scripts.processKnown env process) eqn:Hk; simpl; [|discriminate].
    unfold Scripts.saveScript; simpl.
    destruct (Scripts.writeOk env name); [|discriminate].
    destruct (String.eqb_spec schedule "") as [Hs|Hs]; simpl.
    + intros [= <-]. unfold Scripts.Get; simpl.
      repeat split; auto.
      * apply lookup_insert_eq.
      * intros other Hne. by apply lookup_insert_ne.
      * by rewrite app_nil_r.
    + unfold Scripts.scheduleScript; simpl.
      apply String.eqb_neq in Hs. rewrite Hs.
      destruct (Scripts.cronAccepts env schedule) eqn:Hc; [|discriminate].
      intros [= <-]. unfold Scripts.Get; simpl.
      repeat split; auto.
      * apply lookup_insert_eq.
      * intros other Hne. by apply lookup_insert_ne.
Qed.

Lemma Add_success_witness :
  Scripts.Get "backup"
    (Scripts.mkState
       (<["backup" := Scripts.mkScript "backup" "/opt/backup.sh" "0 */5 * * * *" ""]> ∅)
       [Scripts.mkScript "backup" "/opt/backup.sh" "0 */5 * * * *" ""])
  = Some (Scripts.mkScript "backup" "/opt/backup.sh" "0 */5 * * * *" "").
Proof.
  apply (Add_success scriptEnv "backup" "/opt/backup.sh" "0 */5 * * * *" ""
           (Scripts.mkState ∅ [])).
  vm_compute. reflexivity.
Defined.

(** The scheduling error is the only error of [Add] that comes with a change:
    after any other error the store and the scheduler are as they were, after
    the scheduling error the script is stored and not scheduled. *)
Theorem Add_error_effects env name file schedule process st e st' :
  Scripts.Add env name file schedule process st = (Some e, st') ->
  (e <> Scripts.ErrSchedule -> st' = st)
  /\ (e = Scripts.ErrSchedule ->
      Scripts.stored st'
      = <[name := Scripts.mkScript name file schedule process]> (Scripts.stored st)
      /\ Scripts.scheduled st' = Scripts.scheduled st).
Proof.
  unfold Scripts.Add.
  destruct (Scripts.Get name st) eqn:Hg.
  { intros [= <- <-]. split; [done|discriminate]. }
  destruct (Scripts.notExist env file) eqn:Hf.
  { intros [= <- <-]. split; [done|discriminate]. }
  destruct (negb (String.eqb process "") && negb (Scripts.processKnown env process)).
  { intros [= <- <-]. split; [done|discriminate]. }
  unfold Scripts.saveScript; simpl.
  destruct (Scripts.writeOk env name).
  2:{ intros [= <- <-]. split; [done|discriminate]. }
  destruct (String.eqb schedule "") eqn:Hs; simpl; [discriminate|].
  unfold Scripts.scheduleScript; simpl. rewrite Hs.
  destruct (Scripts.cronAccepts env schedule); [discriminate|].
  intros [= <- <-]. split; [done|]. intros _. by split.
Qed.

Lemma Add_error_effects_witness :
  (Scripts.ErrNoFile "/missing.sh" <> Scripts.ErrSchedule ->
   Scripts.mkState ∅ [] = Scripts.mkState ∅ [])
  /\ (Scripts.ErrNoFile "/missing.sh" = Scripts.ErrSchedule ->
      Scripts.stored (Scripts.mkState ∅ [])
      = <["backup" := Scripts.mkScript "backup" "/missing.sh" "" ""]>
          (Scripts.stored (Scripts.mkState ∅ []))
      /\ Scripts.scheduled (Scripts.mkState ∅ []) = Scripts.scheduled (Scripts.mkState ∅ [])).
Proof.
  apply (Add_error_effects noFileEnv "backup" "/missing.sh" "" "" (Scripts.mkState ∅ [])
           (Scripts.ErrNoFile "/missing.sh") (Scripts.mkState ∅ [])).
  reflexivity.
Defined.

(** [Remove] deletes the stored record and nothing else: the cron entry of the
    script stays in the scheduler.  Adding the script again under the same
    name then schedules it a second time. *)
Theorem Remove_keeps_cron_entry env name file schedule process st :
  Scripts.Get name st = None ->
  Scripts.notExist env file = false ->
  process = "" \/ Scripts.processKnown env process = true ->
  Scripts.writeOk env name = true ->
  Scripts.removeOk env name = true ->
  schedule <> "" ->
  Scripts.cronAccepts env schedule = true ->
  exists st1 st2 st3,
    Scripts.Add env name file schedule process st = (None, st1)
    /\ Scripts.Remove env name st1 = (None, st2)
    /\ Scripts.Get name st2 = None
    /\ Scripts.scheduled st2
       = Scripts.scheduled st ++ [Scripts.mkScript name file schedule process]
    /\ Scripts.Add env name file schedule process st2 = (None, st3)
    /\ Scripts.scheduled st3
       = Scripts.scheduled st
         ++ [Scripts.mkScript name file schedule process;
             Scripts.mkScript name file schedule process].
Proof.
  intros Hg Hf Hp Hw Hr Hs Hc.
  assert (Hp' : negb (String.eqb process "") && negb (Scripts.processKnown env process) = false).
  { destruct Hp as [-> | ->]; [done|]. by rewrite andb_false_r. }
  apply String.eqb_neq in Hs.
  assert (Hadd : forall s,
             Scripts.Get name s = None ->
             Scripts.Add env name file schedule process s
             = (None,
                Scripts.mkState
                  (<[name := Scripts.mkScript name file schedule process]> (Scripts.stored s))
                  (Scripts.scheduled s ++ [Scripts.mkScript name file schedule process]))).
  { intros s Hgs. unfold Scripts.Add. rewrite Hgs, Hf, Hp'.
    unfold Scripts.saveScript; simpl. rewrite Hw, Hs. simpl.
    unfold Scripts.scheduleScript; simpl. by rewrite Hs, Hc. }
  eexists _, _, _. split; [by apply Hadd|].
  split.
  { unfold Scripts.Remove, Scripts.Get; simpl. by rewrite lookup_insert_eq, Hr. }
  split; [unfold Scripts.Get; simpl; apply lookup_delete_eq|].
  split; [done|].
  split.
  { apply Hadd. unfold Scripts.Get; simpl. apply lookup_delete_eq. }
  simpl. by rewrite <- app_assoc.
Qed.

Lemma Remove_keeps_cron_entry_witness :
  exists st1 st2 st3,
    Scripts.Add scriptEnv "backup" "/opt/backup.sh" "0 */5 * * * *" "" (Scripts.mkState ∅ [])
    = (None, st1)
    /\ Scripts.Remove scriptEnv "backup" st1 = (None, st2)
    /\ Scripts.Get "backup" st2 = None
    /\ Scripts.scheduled st2
       = [] ++ [Scripts.mkScript "backup" "/opt/backup.sh" "0 */5 * * * *" ""]
    /\ Scripts.Add scriptEnv "backup" "/opt/backup.sh" "0 */5 * * * *" "" st2 = (None, st3)
    /\ Scripts.scheduled st3
       = [] ++ [Scripts.mkScript "backup" "/opt/backup.sh" "0 */5 * * * *" "";
                Scripts.mkScript "backup" "/opt/backup.sh" "0 */5 * * * *" ""].
Proof.
  apply (Remove_keeps_cron_entry scriptEnv "backup" "/opt/backup.sh" "0 */5 * * * *" ""
           (Scripts.mkState ∅ [])).
  - reflexivity.
  - reflexivity.
  - by left.
  - reflexivity.
  - reflexivity.
  - discriminate.
  - reflexivity.
Defined.

Lemma scheduleEach_spec env scripts st :
  Scripts.stored (scheduleEach env scripts st) = Scripts.stored st
  /\ Scripts.scheduled (scheduleEach env scripts st)
     = Scripts.scheduled st
       ++ List.filter
            (fun s => negb (String.eqb (Scripts.Schedule s) "")
                      && Scripts.cronAccepts env (Scripts.Schedule s))
            scripts.
Proof.
  revert st. induction scripts as [|s scripts IH]; intros st; simpl.
  { by rewrite app_nil_r. }
  destruct (String.eqb (Scripts.Schedule s) "") eqn:Hs; simpl.
  { apply IH. }
  unfold Scripts.scheduleScript. rewrite Hs.
  destruct (Scripts.cronAccepts env (Scripts.Schedule s)); simpl.
  - destruct (IH (Scripts.mkState (Scripts.stored st) (Scripts.scheduled st ++ [s])))
      as [H1 H2].
    rewrite H1, H2. simpl. by rewrite <- app_assoc.
  - apply IH.
Qed.

(** What a new script service schedules: exactly the stored scripts that
    carry a cron expression the parser accepts; a stored script with a
    rejected expression is passed over without a trace; the store is not
    touched.  When the directory cannot be listed nothing is scheduled. *)
Theorem NewScriptService_schedules env files :
  Scripts.stored (NewScriptService env true files) = files
  /\ (forall s,
        s ∈ Scripts.scheduled (NewScriptService env true files)
        <-> (exists key, files !! key = Some s)
            /\ Scripts.Schedule s <> ""
            /\ Scripts.cronAccepts env (Scripts.Schedule s) = true)
  /\ NewScriptService env false files = Scripts.mkState files [].
Proof.
  unfold NewScriptService, loadScheduledScripts, List. simpl.
  destruct (scheduleEach_spec env (snd <$> map_to_list files) (Scripts.mkState files []))
    as [H1 H2].
  split; [exact H1|]. split; [|done].
  intros s. rewrite H2. simpl.
  rewrite list_elem_of_In, filter_In, <- list_elem_of_In.
  rewrite andb_true_iff, negb_true_iff, String.eqb_neq, list_elem_of_fmap.
  split.
  - intros (([key s'] & -> & Hin) & Hs & Hc).
    apply elem_of_map_to_list in Hin. eauto.
  - intros ((key & Hk) & Hs & Hc). split; [|done].
    exists (key, s). split; [done|]. by apply elem_of_map_to_list.
Qed.


(** ** Loaded descriptors *)

(** A descriptor that comes out of [LoadProcessConfig] never has an empty
    restart policy, a zero [max_restarts] or a zero [restart_delay]: the three
    are replaced by "on-failure", 10 and 3, values that were set are kept, and
    no other field is touched.  So for a loaded descriptor the monitor's
    "unlimited" case ([max_restarts = 0]) cannot occur: the cap test is just
    [Restarts < MaxRestarts]. *)
Theorem LoadProcessConfig_defaults readConfig filePath c :
  readConfig filePath = Some c ->
  exists c',
    LoadProcessConfig readConfig filePath = Some c'
    /\ Restart c' = (if String.eqb (Restart c) "" then "on-failure" else Restart c)
    /\ MaxRestarts c' = (if MaxRestarts c =? 0 then 10 else MaxRestarts c)
    /\ RestartDelay c' = (if RestartDelay c =? 0 then 3 else RestartDelay c)
    /\ Restart c' <> ""
    /\ MaxRestarts c' <> 0
    /\ RestartDelay c' <> 0
    /\ withDefaults c' = c'
    /\ (Name c', Command c', Args c', WorkingDir c', Environment c')
       = (Name c, Command c, Args c, WorkingDir c, Environment c)
    /\ (Cluster c', Log c', AutoStart c', User c', Group c', Scripts c')
       = (Cluster c, Log c, AutoStart c, User c, Group c, Scripts c)
    /\ (forall restarts, underCap c' restarts = (restarts <? MaxRestarts c')).
Proof.
  intros Hr. unfold LoadProcessConfig. rewrite Hr.
  eexists. split; [reflexivity|]. simpl.
  assert (H1 : (if String.eqb (Restart c) "" then "on-failure" else Restart c) <> "").
  { destruct (String.eqb_spec (Restart c) ""); [discriminate|done]. }
  assert (H2 : (if MaxRestarts c =? 0 then 10 else MaxRestarts c) <> 0).
  { destruct (Z.eqb_spec (MaxRestarts c) 0); [discriminate|done]. }
  assert (H3 : (if RestartDelay c =? 0 then 3 else RestartDelay c) <> 0).
  { destruct (Z.eqb_spec (RestartDelay c) 0); [discriminate|done]. }
  repeat split; try done.
  - unfold withDefaults at 1; simpl.
    apply String.eqb_neq in H1. apply Z.eqb_neq in H2, H3. by rewrite H1, H2, H3.
  - intros restarts. unfold underCap; simpl.
    apply Z.eqb_neq in H2. by rewrite H2.
Qed.

Lemma LoadProcessConfig_defaults_witness :
  exists c',
    LoadProcessConfig (boot_readConfig bootExample) "/proc/svc.gem" = Some c'
    /\ Restart c' = "on-failure"
    /\ MaxRestarts c' = 10
    /\ RestartDelay c' = 3.
Proof.
  destruct (LoadProcessConfig_defaults (boot_readConfig bootExample) "/proc/svc.gem"
              (plainConfig "svc" "" 0 0) eq_refl)
    as (c' & Hl & H1 & H2 & H3 & _).
  exists c'. by repeat split.
Defined.


(** ** The process service of the command-line tool *)

Section ServiceFacts.
Import Service.

(** What [startProcess] may change of the process it starts: pid and status.
    It spawns at most one child. *)
Lemma startProcess_frame os p st process :
  mem st !! p = Some process ->
  exists process',
    mem (snd (startProcess os p st)) !! p = Some process'
    /\ Process.Name process' = Process.Name process
    /\ Process.Restart process' = Process.Restart process
    /\ Process.MaxRestarts process' = Process.MaxRestarts process
    /\ Process.Restarts process' = Process.Restarts process
    /\ (length (spawned (snd (startProcess os p st))) <= S (length (spawned st)))%nat.
Proof.
  intros Hp. unfold startProcess. rewrite Hp.
  assert (Hsame : exists process',
             mem st !! p = Some process'
             /\ Process.Name process' = Process.Name process
             /\ Process.Restart process' = Process.Restart process
             /\ Process.MaxRestarts process' = Process.MaxRestarts process
             /\ Process.Restarts process' = Process.Restarts process
             /\ (length (spawned st) <= S (length (spawned st)))%nat).
  { exists process. repeat split; auto. }
  destruct (os_fields os (Process.Cmd process)) as [|cmd0 args]; [exact Hsame|].
  destruct (os_createLog os (Process.Name process +:+ ".out.log")); [|exact Hsame].
  destruct (os_createLog os (Process.Name process +:+ ".err.log")); [|exact Hsame].
  simpl.
  destruct (os_cmdStart os (cmd0 :: args) (Process.Cwd process) (Process.Env process))
    as [pid|]; [|exact Hsame].
  assert (Hlt : (p < length (mem st))%nat) by (by apply lookup_lt_Some in Hp).
  unfold saveProcess; simpl.
  destruct (os_writeConfig os (Process.Name process)); simpl.
  - destruct (os_writePid os (Process.Name process)); simpl;
      (eexists; split; [apply list_lookup_insert_eq; exact Hlt|];
       repeat split; rewrite ?length_app; simpl; lia).
  - eexists. split; [apply list_lookup_insert_eq; exact Hlt|].
    repeat split; rewrite ?length_app; simpl; lia.
Qed.

Lemma capped_monitor os base M p st :
  M < 2 ^ 63 ->
  capped base M p st ->
  capped base M p (monitor os p st).
Proof.
  intros HM (process & Hp & Hmax & Hr & Hs).
  assert (Hlt : (p < length (mem st))%nat) by (by apply lookup_lt_Some in Hp).
  unfold monitor. rewrite Hp.
  destruct (Process.Restart process && (Process.Restarts process <? Process.MaxRestarts process))
    eqn:Hdec.
  - apply andb_true_iff in Hdec as [_ Hlt']. apply Z.ltb_lt in Hlt'.
    assert (Hw : Core.wrap64 (Process.Restarts process + 1) = Process.Restarts process + 1).
    { unfold Core.wrap64. rewrite Z.mod_small; lia. }
    set (restarting := withStatus "restarting"
                         (withRestarts (Core.wrap64 (Process.Restarts process + 1)) process)).
    set (st2 := snd (saveProcess os restarting (setMem (fun m => <[p := restarting]> m) st))).
    assert (Hp2 : mem st2 !! p = Some restarting).
    { unfold st2, saveProcess. destruct (os_writeConfig os _); simpl;
        apply list_lookup_insert_eq; exact Hlt. }
    assert (Hs2 : spawned st2 = spawned st).
    { unfold st2, saveProcess. by destruct (os_writeConfig os _). }
    destruct (startProcess_frame os p st2 restarting Hp2)
      as (process' & Hp' & _ & _ & Hmax' & Hr' & Hs').
    exists process'. split; [exact Hp'|].
    rewrite Hmax', Hr'. simpl. rewrite Hw, Hs2 in *.
    split; [done|]. split; [lia|].
    replace (Z.to_nat (Process.Restarts process + 1))
      with (S (Z.to_nat (Process.Restarts process))) by lia.
    lia.
  - exists (withStatus "stopped" process).
    unfold saveProcess. destruct (os_writeConfig os _); simpl;
      (split; [apply list_lookup_insert_eq; exact Hlt|]; repeat split; simpl; lia).
Qed.

Lemma capped_exit os base M p st :
  M < 2 ^ 63 -> capped base M p st -> capped base M p (exit os p st).
Proof.
  intros HM Hc. unfold exit.
  destruct (decide (p ∈ monitors st)); [|done].
  apply capped_monitor; [done|].
  destruct Hc as (process & Hp & Hrest). by exists process.
Qed.

Lemma capped_exits oss base M p st :
  M < 2 ^ 63 -> capped base M p st -> capped base M p (exits oss p st).
Proof.
  intros HM. revert st. induction oss as [|os oss IH]; intros st Hc; [done|].
  simpl. apply IH. by apply capped_exit.
Qed.

Lemma Get_spawned os name st : spawned (snd (Get os name st)) = spawned st.
Proof.
  unfold Get. destruct (configs st !! name) as [process|]; [|done].
  destruct (String.eqb _ _ && _); [|done].
  unfold saveProcess. by destruct (os_writeConfig os _).
Qed.

(** The restart cap of the process service holds: after a start with
    [maxRestarts = M], however many exits of the child and of its successors
    are observed, and whatever the surroundings answer at each of them, the
    command has been spawned at most [M + 1] times (once when [M] is
    negative), and the restart counter is never above the cap. *)
Theorem service_restart_cap os name cmd cwd restart M env st p st1 oss :
  M < 2 ^ 63 ->
  Start os name cmd cwd restart M env st = (inr p, st1) ->
  (length (spawned (exits oss p st1)) <= length (spawned st) + Z.to_nat M + 1)%nat
  /\ exists process,
       mem (exits oss p st1) !! p = Some process
       /\ 0 <= Process.Restarts process <= Z.max 0 M.
Proof.
  intros HM Hstart.
  assert (Hc : capped (length (spawned st)) M p st1).
  { unfold Start in Hstart.
    destruct (Get os name st) as [[e|found] st0] eqn:Hget; [|discriminate].
    pose proof (Get_spawned os name st) as Hsp0. rewrite Hget in Hsp0. simpl in Hsp0.
    set (process := Process.mk name cmd cwd 0 "starting" restart M 0 env (os_now os)) in *.
    unfold saveProcess in Hstart. simpl in Hstart.
    destruct (os_writeConfig os name); [|discriminate].
    set (st2 := setConfigs _ (setMem _ st0)) in Hstart.
    assert (Hp2 : mem st2 !! length (mem st0) = Some process).
    { unfold st2; simpl. by apply list_lookup_middle. }
    destruct (startProcess_frame os (length (mem st0)) st2 process Hp2)
      as (process' & Hp' & _ & _ & Hmax' & Hr' & Hs').
    destruct (startProcess os (length (mem st0)) st2) as [[e'|] st3]; [discriminate|].
    injection Hstart as <- <-.
    exists process'. split; [exact Hp'|]. rewrite Hmax', Hr'. simpl.
    split; [done|]. split; [lia|].
    simpl in Hs'. change (spawned st2) with (spawned st0) in Hs'. rewrite Hsp0 in Hs'.
    simpl. lia. }
  destruct (capped_exits oss _ M p st1 HM Hc) as (process & Hp & _ & Hr & Hs).
  split; [|by exists process].
  assert (Z.to_nat (Process.Restarts process) <= Z.to_nat M)%nat by lia.
  lia.
Qed.

Lemma service_restart_cap_witness :
  (length (spawned (exits [svcOk; svcOk; svcOk; svcOk; svcOk] 0%nat
                      (snd (Start svcOk "job" "false" "." true 3 [] svcEmpty))))
   <= length (spawned svcEmpty) + Z.to_nat 3 + 1)%nat
  /\ exists process,
       mem (exits [svcOk; svcOk; svcOk; svcOk; svcOk] 0%nat
              (snd (Start svcOk "job" "false" "." true 3 [] svcEmpty))) !! 0%nat
       = Some process
       /\ 0 <= Process.Restarts process <= Z.max 0 3.
Proof.
  apply (service_restart_cap svcOk "job" "false" "." true 3 [] svcEmpty 0%nat).
  - reflexivity.
  - vm_compute. reflexivity.
Defined.

(** The scenario of a command that always fails, with three restarts
    allowed: four spawns in all, a counter of three, and the stored record
    says "stopped" with the PID file gone. *)
Example service_restart_cap_reached :
  spawned (exits [svcOk; svcOk; svcOk; svcOk; svcOk] 0%nat
             (snd (Start svcOk "job" "false" "." true 3 [] svcEmpty)))
  = [("job", 100); ("job", 100); ("job", 100); ("job", 100)]
  /\ configs (exits [svcOk; svcOk; svcOk; svcOk; svcOk] 0%nat
                (snd (Start svcOk "job" "false" "." true 3 [] svcEmpty))) !! "job"
     = Some (Process.mk "job" "false" "." 100 "stopped" true 3 3 [] 0)
  /\ pidFiles (exits [svcOk; svcOk; svcOk; svcOk; svcOk] 0%nat
                 (snd (Start svcOk "job" "false" "." true 3 [] svcEmpty))) !! "job"
     = None.
Proof. repeat split; vm_compute; reflexivity. Qed.

(** [startProcess] when nothing fails. *)
Lemma startProcess_ok os p st process :
  mem st !! p = Some process ->
  startable os process = true ->
  exists pid,
    startedPid os process = Some pid
    /\ startProcess os p st
       = (None,
          setMonitors (fun g => g ++ [p])
            (setPidFiles (fun f => <[Process.Name process := pid]> f)
               (setConfigs
                  (fun m => <[Process.Name process := withStatus "running" (withPid pid process)]> m)
                  (setMem (fun m => <[p := withStatus "running" (withPid pid process)]> m)
                     (logSpawn (Process.Name process) pid st))))).
Proof.
  intros Hp Hok. unfold startable, startedPid in *. unfold startProcess. rewrite Hp.
  destruct (os_fields os (Process.Cmd process)) as [|cmd0 args]; [discriminate|].
  destruct (os_createLog os (Process.Name process +:+ ".out.log")); [|discriminate].
  destruct (os_createLog os (Process.Name process +:+ ".err.log")); [|discriminate].
  destruct (os_cmdStart os (cmd0 :: args) (Process.Cwd process) (Process.Env process))
    as [pid|]; [|discriminate].
  simpl in Hok. apply andb_true_iff in Hok as [Hw Hpid].
  exists pid. split; [done|]. unfold saveProcess. simpl. by rewrite Hw, Hpid.
Qed.

(** [startProcess] when something fails: no monitor, no PID file, and a child
    only when the failure came after the spawn. *)
Lemma startProcess_fails os p st process e st' :
  mem st !! p = Some process ->
  startProcess os p st = (Some e, st') ->
  monitors st' = monitors st
  /\ pidFiles st' = pidFiles st
  /\ (e = ErrWritePid \/ e = ErrWriteConfig ->
      exists pid, spawned st' = spawned st ++ [(Process.Name process, pid)])
  /\ (e <> ErrWritePid -> e <> ErrWriteConfig -> spawned st' = spawned st /\ configs st' = configs st)
  /\ (os_writeConfig os (Process.Name process) = true -> e <> ErrWriteConfig)
  /\ match e with
     | ErrInvalidCommand | ErrCreateLog _ | ErrStart | ErrWriteConfig | ErrWritePid => True
     | _ => False
     end.
Proof.
  intros Hp. unfold startProcess. rewrite Hp.
  destruct (os_fields os (Process.Cmd process)) as [|cmd0 args].
  { intros [= <- <-]. repeat split; try done; intros [?|?]; discriminate. }
  destruct (os_createLog os (Process.Name process +:+ ".out.log")); simpl.
  2:{ intros [= <- <-]. repeat split; try done; intros [?|?]; discriminate. }
  destruct (os_createLog os (Process.Name process +:+ ".err.log")); simpl.
  2:{ intros [= <- <-]. repeat split; try done; intros [?|?]; discriminate. }
  destruct (os_cmdStart os (cmd0 :: args) (Process.Cwd process) (Process.Env process))
    as [pid|].
  2:{ intros [= <- <-]. repeat split; try done; intros [?|?]; discriminate. }
  unfold saveProcess. simpl.
  destruct (os_writeConfig os (Process.Name process)); simpl.
  - destruct (os_writePid os (Process.Name process)); simpl; [discriminate|].
    intros [= <- <-]. repeat split; try done. intros _. by exists pid.
  - intros [= <- <-]. repeat split; try done. intros _. by exists pid.
Qed.

(** A [Start] that hands back a process. *)
Lemma Start_inr os name cmd cwd restart M env st p st' :
  Start os name cmd cwd restart M env st = (inr p, st') ->
  exists pid,
    configs st !! name = None
    /\ configs st' !! name
       = Some (Process.mk name cmd cwd pid "running" restart M 0 env (os_now os))
    /\ mem st' !! p
       = Some (Process.mk name cmd cwd pid "running" restart M 0 env (os_now os))
    /\ pidFiles st' !! name = Some pid
    /\ p ∈ monitors st'
    /\ spawned st' = spawned st ++ [(name, pid)].
Proof.
  unfold Start, Get.
  destruct (configs st !! name) as [found|] eqn:Hfound.
  { destruct (String.eqb (Process.Status found) "running" && _); discriminate. }
  set (process := Process.mk name cmd cwd 0 "starting" restart M 0 env (os_now os)).
  unfold saveProcess at 1. simpl.
  destruct (os_writeConfig os name) eqn:Hw; [|discriminate].
  set (st2 := setConfigs _ (setMem _ st)).
  assert (Hp2 : mem st2 !! length (mem st) = Some process).
  { unfold st2; simpl. by apply list_lookup_middle. }
  destruct (startProcess os (length (mem st)) st2) as [[e|] st3] eqn:Hs; [discriminate|].
  intros [= <- <-].
  assert (Hok : startable os process = true).
  { unfold startable. unfold startProcess in Hs. rewrite Hp2 in Hs.
    destruct (os_fields os (Process.Cmd process)) as [|cmd0 args]; [discriminate|].
    destruct (os_createLog os (Process.Name process +:+ ".out.log")); [|discriminate].
    destruct (os_createLog os (Process.Name process +:+ ".err.log")); [|discriminate].
    simpl in Hs |- *.
    destruct (os_cmdStart os (cmd0 :: args) cwd env) as [pid|]; [|discriminate].
    unfold saveProcess in Hs. simpl in Hs. rewrite Hw in Hs. rewrite Hw. simpl in *.
    by destruct (os_writePid os name). }
  destruct (startProcess_ok os _ st2 process Hp2 Hok) as (pid & _ & Hs').
  rewrite Hs in Hs'. injection Hs' as ->.
  exists pid. simpl. split; [done|].
  split; [apply lookup_insert_eq|].
  split.
  { rewrite list_lookup_insert_eq; [done|]. rewrite length_app. simpl. lia. }
  split; [apply lookup_insert_eq|].
  split; [|done].
  apply elem_of_app. right. by apply list_elem_of_singleton.
Qed.



(** What [Get] hands back and what it leaves alone. *)
Lemma Get_inr os name st q s0 :
  Get os name st = (inr q, s0) ->
  (exists found, configs st !! name = Some found /\ Process.Name q = Process.Name found)
  /\ mem s0 = mem st /\ monitors s0 = monitors st /\ spawned s0 = spawned st.
Proof.
  unfold Get. destruct (configs st !! name) as [found|]; [|discriminate].
  destruct (String.eqb (Process.Status found) "running" && _).
  - intros [= <- <-]. split; [by exists found|].
    unfold saveProcess. by destruct (os_writeConfig os _).
  - intros [= <- <-]. split; [by exists found|done].
Qed.

(** [Stop] leaves the processes in memory, their pending monitors and the
    record of spawns alone. *)
Lemma Stop_frame os name st r st' :
  Stop os name st = (r, st') ->
  mem st' = mem st /\ monitors st' = monitors st /\ spawned st' = spawned st.
Proof.
  unfold Stop.
  destruct (Get os name st) as [[e|q] s0] eqn:HGet.
  { unfold Get in HGet. destruct (configs st !! name) as [found|].
    - destruct (String.eqb (Process.Status found) "running" && _); discriminate.
    - injection HGet as _ <-. by intros [= <- <-]. }
  apply Get_inr in HGet as (_ & Hm & Hg & Hs).
  destruct (String.eqb (Process.Status q) "stopped"); [by intros [= <- <-]|].
  destruct (os_findProcess os (Process.Pid q)); simpl; [|by intros [= <- <-]].
  unfold saveProcess.
  destruct (os_sigterm os (Process.Pid q)); simpl.
  - destruct (os_writeConfig os (Process.Name q)); by intros [= <- <-].
  - destruct (os_kill os (Process.Pid q)); simpl; [|by intros [= <- <-]].
    destruct (os_writeConfig os (Process.Name q)); by intros [= <- <-].
Qed.

(** A successful [Stop] leaves the record stored as "stopped" and no PID
    file, so a second [Stop] of the same name is refused as "already
    stopped" and changes nothing, whatever the surroundings then answer.
    The stored record is taken to carry the name it is stored under, which
    is how [saveProcess] stores it. *)
Theorem Stop_twice os os2 name st st1 :
  (forall process, configs st !! name = Some process -> Process.Name process = name) ->
  Stop os name st = (None, st1) ->
  (exists process,
      configs st1 !! name = Some process /\ Process.Status process = "stopped")
  /\ pidFiles st1 !! name = None
  /\ Stop os2 name st1 = (Some (ErrAlreadyStopped name), st1).
Proof.
  intros Hname. unfold Stop at 1.
  destruct (Get os name st) as [[e|q] s0] eqn:HGet; [discriminate|].
  apply Get_inr in HGet as ((found & Hfound & Hq) & _).
  rewrite (Hname found Hfound) in Hq.
  intros HStop.
  assert (Hres : configs st1 !! name = Some (withStatus "stopped" q)
                 /\ pidFiles st1 !! name = None).
  { revert HStop.
    destruct (String.eqb (Process.Status q) "stopped"); [discriminate|].
    destruct (os_findProcess os (Process.Pid q)); simpl; [|discriminate].
    unfold saveProcess. simpl. rewrite Hq.
    destruct (os_sigterm os (Process.Pid q)); simpl.
    - destruct (os_writeConfig os name); [|discriminate].
      intros [= <-]. simpl. split; [apply lookup_insert_eq|apply lookup_delete_eq].
    - destruct (os_kill os (Process.Pid q)); simpl; [|discriminate].
      destruct (os_writeConfig os name); [|discriminate].
      intros [= <-]. simpl. split; [apply lookup_insert_eq|apply lookup_delete_eq]. }
  destruct Hres as (Hcfg & Hpid).
  split; [by eexists|]. split; [done|].
  unfold Stop, Get. rewrite Hcfg. reflexivity.
Qed.

Lemma Stop_twice_witness :
  (exists process,
      configs (snd (Stop svcOk "job" (snd (Start svcOk "job" "false" "." true 3 [] svcEmpty))))
        !! "job" = Some process
      /\ Process.Status process = "stopped")
  /\ pidFiles (snd (Stop svcOk "job" (snd (Start svcOk "job" "false" "." true 3 [] svcEmpty))))
       !! "job" = None
  /\ Stop svcOk "job"
       (snd (Stop svcOk "job" (snd (Start svcOk "job" "false" "." true 3 [] svcEmpty))))
     = (Some (ErrAlreadyStopped "job"),
        snd (Stop svcOk "job" (snd (Start svcOk "job" "false" "." true 3 [] svcEmpty)))).
Proof.
  apply (Stop_twice svcOk svcOk "job"
           (snd (Start svcOk "job" "false" "." true 3 [] svcEmpty))).
  - intros process. vm_compute. by intros [= <-].
  - vm_compute. reflexivity.
Defined.

(** [startable] reads the name, the command, the directory and the
    environment only. *)
Lemma startable_ext os process process' :
  Process.Name process' = Process.Name process ->
  Process.Cmd process' = Process.Cmd process ->
  Process.Cwd process' = Process.Cwd process ->
  Process.Env process' = Process.Env process ->
  startable os process' = startable os process.
Proof. unfold startable. by intros -> -> -> ->. Qed.

Lemma startedPid_ext os process process' :
  Process.Cmd process' = Process.Cmd process ->
  Process.Cwd process' = Process.Cwd process ->
  Process.Env process' = Process.Env process ->
  startedPid os process' = startedPid os process.
Proof. unfold startedPid. by intros -> -> ->. Qed.

(** [Stop] does not reach the monitor of the child it signals.  A process
    started with restarts enabled and a cap above zero is stopped
    successfully; when its child then exits, the pending monitor spawns a new
    child, and the stored record says "running" again, with the new pid and
    a counter of one. *)
Theorem stop_does_not_cancel_restart os os2 os3 name cmd cwd M env st p st1 st2 :
  0 < M ->
  Start os name cmd cwd true M env st = (inr p, st1) ->
  Stop os2 name st1 = (None, st2) ->
  startable os3 (Process.mk name cmd cwd 0 "starting" true M 0 env 0) = true ->
  exists pid,
    startedPid os3 (Process.mk name cmd cwd 0 "starting" true M 0 env 0) = Some pid
    /\ spawned (exit os3 p st2) = spawned st2 ++ [(name, pid)]
    /\ pidFiles (exit os3 p st2) !! name = Some pid
    /\ exists process,
         configs (exit os3 p st2) !! name = Some process
         /\ Process.Status process = "running"
         /\ Process.Pid process = pid
         /\ Process.Restarts process = 1.
Proof.
  intros HM HStart HStop Hok.
  destruct (Start_inr _ _ _ _ _ _ _ _ _ _ HStart) as (pid0 & _ & _ & Hmem & _ & Hmon & _).
  destruct (Stop_frame _ _ _ _ _ HStop) as (Hmem2 & Hmon2 & _).
  unfold exit. rewrite Hmon2. rewrite decide_True by done.
  unfold monitor. simpl. rewrite Hmem2, Hmem. simpl.
  assert (HltM : (0 <? M) = true) by (apply Z.ltb_lt; lia).
  rewrite HltM.
  change (Core.wrap64 (0 + 1)) with 1.
  set (restarting := withStatus "restarting" (withRestarts 1 _)).
  assert (Hw : os_writeConfig os3 name = true).
  { unfold startable in Hok. simpl in Hok.
    destruct (os_fields os3 cmd); [discriminate|].
    apply andb_true_iff in Hok as [Hok _]. by apply andb_true_iff in Hok as [_ Hok]. }
  set (sta := setConfigs (fun m => <[name := restarting]> m)
                (setMem (fun m => <[p := restarting]> m)
                   (setMonitors (retireMonitor p) st2))).
  assert (Hsave : saveProcess os3 restarting
                    (setMem (fun m => <[p := restarting]> m)
                       (setMonitors (retireMonitor p) st2)) = (None, sta)).
  { unfold saveProcess. simpl. by rewrite Hw. }
  rewrite Hsave. simpl.
  assert (Hpa : mem sta !! p = Some restarting).
  { unfold sta. simpl. apply list_lookup_insert_eq.
    rewrite Hmem2. by apply lookup_lt_Some in Hmem. }
  assert (Hoka : startable os3 restarting = true).
  { rewrite <- Hok. by apply startable_ext. }
  destruct (startProcess_ok os3 p sta restarting Hpa Hoka) as (pid & Hpid & Hs).
  rewrite Hs. simpl.
  exists pid. split.
  { rewrite <- Hpid. symmetry. by apply startedPid_ext. }
  split; [done|].
  split; [apply lookup_insert_eq|].
  eexists. split; [apply lookup_insert_eq|]. by repeat split.
Qed.

Lemma stop_does_not_cancel_restart_witness :
  exists pid,
    startedPid svcOk (Process.mk "job" "false" "." 0 "starting" true 3 0 [] 0) = Some pid
    /\ spawned (exit svcOk 0%nat
                  (snd (Stop svcOk "job"
                          (snd (Start svcOk "job" "false" "." true 3 [] svcEmpty)))))
       = spawned (snd (Stop svcOk "job"
                         (snd (Start svcOk "job" "false" "." true 3 [] svcEmpty))))
         ++ [("job", pid)]
    /\ pidFiles (exit svcOk 0%nat
                   (snd (Stop svcOk "job"
                           (snd (Start svcOk "job" "false" "." true 3 [] svcEmpty)))))
         !! "job" = Some pid
    /\ exists process,
         configs (exit svcOk 0%nat
                    (snd (Stop svcOk "job"
                            (snd (Start svcOk "job" "false" "." true 3 [] svcEmpty)))))
           !! "job" = Some process
         /\ Process.Status process = "running"
         /\ Process.Pid process = pid
         /\ Process.Restarts process = 1.
Proof.
  apply (stop_does_not_cancel_restart svcOk svcOk svcOk "job" "false" "." 3 [] svcEmpty 0%nat
           (snd (Start svcOk "job" "false" "." true 3 [] svcEmpty))).
  - reflexivity.
  - vm_compute. reflexivity.
  - vm_compute. reflexivity.
  - vm_compute. reflexivity.
Defined.

(** A [startProcess] without error had everything succeed. *)
Lemma startProcess_None os p st process st' :
  mem st !! p = Some process ->
  startProcess os p st = (None, st') ->
  startable os process = true.
Proof.
  intros Hp. unfold startProcess, startable. rewrite Hp.
  destruct (os_fields os (Process.Cmd process)) as [|cmd0 args]; [discriminate|].
  destruct (os_createLog os (Process.Name process +:+ ".out.log")); [|discriminate].
  destruct (os_createLog os (Process.Name process +:+ ".err.log")); [|discriminate].
  simpl.
  destruct (os_cmdStart os (cmd0 :: args) (Process.Cwd process) (Process.Env process))
    as [pid|]; [|discriminate].
  unfold saveProcess. simpl.
  destruct (os_writeConfig os (Process.Name process)); [|discriminate].
  by destruct (os_writePid os (Process.Name process)).
Qed.

(** A successful [Restart] works on a new value in memory: the process it
    hands back lies past every earlier one, runs with a counter of zero and
    the start time of the restart, is stored so under its name together with
    its pid, and has a monitor of its own; the monitors that were pending
    before are all still pending. *)
Theorem Restart_fresh_process os name st p st' :
  Restart os name st = (inr p, st') ->
  p = length (mem st)
  /\ monitors st' = monitors st ++ [p]
  /\ exists process,
       mem st' !! p = Some process
       /\ configs st' !! Process.Name process = Some process
       /\ pidFiles st' !! Process.Name process = Some (Process.Pid process)
       /\ Process.Status process = "running"
       /\ Process.Restarts process = 0
       /\ Process.StartTime process = os_now os.
Proof.
  unfold Restart.
  destruct (Get os name st) as [[e|q] s0] eqn:HGet; [discriminate|].
  apply Get_inr in HGet as (_ & Hm0 & Hg0 & _).
  set (fresh := withStartTime (os_now os) (withRestarts 0 q)).
  assert (Hcommon : forall s1,
             mem s1 = mem st -> monitors s1 = monitors st ->
             match startProcess os (length (mem s1)) (setMem (fun m => m ++ [fresh]) s1) with
             | (Some e, st3) => (inl e, st3)
             | (None, st3) => (inr (length (mem s1)), st3)
             end = (inr p, st') ->
             p = length (mem st)
             /\ monitors st' = monitors st ++ [p]
             /\ exists process,
                  mem st' !! p = Some process
                  /\ configs st' !! Process.Name process = Some process
                  /\ pidFiles st' !! Process.Name process = Some (Process.Pid process)
                  /\ Process.Status process = "running"
                  /\ Process.Restarts process = 0
                  /\ Process.StartTime process = os_now os).
  { intros s1 Hm1 Hg1.
    set (s2 := setMem (fun m => m ++ [fresh]) s1).
    assert (Hp2 : mem s2 !! length (mem s1) = Some fresh).
    { unfold s2. simpl. by apply list_lookup_middle. }
    destruct (startProcess os (length (mem s1)) s2) as [[e|] st3] eqn:Hs; [discriminate|].
    intros [= <- <-].
    pose proof (startProcess_None _ _ _ _ _ Hp2 Hs) as Hok.
    destruct (startProcess_ok os _ s2 fresh Hp2 Hok) as (pid & _ & Hs').
    rewrite Hs in Hs'. injection Hs' as ->.
    split; [by rewrite Hm1|]. split; [simpl; by rewrite Hg1|].
    eexists. simpl. split.
    { apply list_lookup_insert_eq. rewrite length_app. simpl. lia. }
    split; [apply lookup_insert_eq|].
    split; [apply lookup_insert_eq|]. by repeat split. }
  destruct (String.eqb (Process.Status q) "running").
  - destruct (Stop os name s0) as [[e|] s1] eqn:HStop; [discriminate|].
    apply Stop_frame in HStop as (Hm1 & Hg1 & _).
    apply Hcommon; congruence.
  - by apply Hcommon.
Qed.

Lemma Restart_fresh_process_witness :
  1%nat = length (mem (snd (Start svcOk "job" "false" "." true 3 [] svcEmpty)))
  /\ monitors (snd (Restart svcOk "job" (snd (Start svcOk "job" "false" "." true 3 [] svcEmpty))))
     = monitors (snd (Start svcOk "job" "false" "." true 3 [] svcEmpty)) ++ [1%nat]
  /\ exists process,
       mem (snd (Restart svcOk "job" (snd (Start svcOk "job" "false" "." true 3 [] svcEmpty))))
         !! 1%nat = Some process
       /\ configs (snd (Restart svcOk "job"
                          (snd (Start svcOk "job" "false" "." true 3 [] svcEmpty))))
            !! Process.Name process = Some process
       /\ pidFiles (snd (Restart svcOk "job"
                           (snd (Start svcOk "job" "false" "." true 3 [] svcEmpty))))
            !! Process.Name process = Some (Process.Pid process)
       /\ Process.Status process = "running"
       /\ Process.Restarts process = 0
       /\ Process.StartTime process = os_now svcOk.
Proof.
  apply (Restart_fresh_process svcOk "job"
           (snd (Start svcOk "job" "false" "." true 3 [] svcEmpty)) 1%nat).
  vm_compute. reflexivity.
Defined.
End ServiceFacts.
